(** * Crop Yield Predictor (app.py): model loading, form assembly and the
      prediction fallback, embedded and verified.

    The program is a Streamlit script.  Its four functions are embedded as
    state-passing computations over a [World] that holds what the script
    can observe or change: the DataFrame objects it allocates (addressed
    by reference, so that aliasing and [df.copy()] are visible), the
    deserialised model objects, the file system, the resource cache, the
    browser-side widget state and the elements rendered on the page.

    Conventions.
    - A Python [float] is modelled by a rational ([Q]): the program only
      stores, compares and displays floats, and on finite floats order and
      equality agree with those of the rationals they denote.
    - An exception value is an instance of Python's [Exception]; process
      control ([KeyboardInterrupt], [SystemExit]) is outside the model, and
      Streamlit's [st.stop()] is the separate outcome [Stopped], which no
      [except Exception] clause catches.
    - pandas is the pandas the program was written for: a column of
      Python [str] has dtype [object], and [astype(int)] gives [int64].
      The labels of a table are distinct wherever a property depends on
      [df[col]] being one column.
    - The model is any object: its [predict] may raise, may return any
      array of floats, may change the model and may write to the table it
      is handed. *)

From Stdlib Require Import ZArith QArith String Ascii List Lia Sorted.
From stdpp Require Import base option list gmap strings.
Import ListNotations.

Local Open Scope string_scope.
Local Open Scope list_scope.

(* ===================================================================== *)
(** ** Python values and pandas columns *)
(* ===================================================================== *)

(** The scalar values that [build_input_form] stores in its [data] dict. *)
Inductive PyVal : Type :=
| PStr (s : string)
| PFloat (q : Q)
| PBool (b : bool)
| PInt (z : Z).

(** Python's [type(v)], restricted to the four scalar types above. *)
Inductive PyType : Type := Tstr | Tfloat | Tbool | Tint.

Definition type_of (v : PyVal) : PyType :=
  match v with
  | PStr _ => Tstr
  | PFloat _ => Tfloat
  | PBool _ => Tbool
  | PInt _ => Tint
  end.

(** numpy / pandas dtypes that occur in the program. *)
Inductive dtype : Type := object | float64 | bool_ | int8 | int16 | int32 | int64.

(** Widths of the signed integer dtypes. *)
Inductive int_width : Type := W8 | W16 | W32 | W64.

Definition int_dtype (w : int_width) : dtype :=
  match w with W8 => int8 | W16 => int16 | W32 => int32 | W64 => int64 end.

(** A pandas [Series]: a homogeneous column.  An [object] column holds
    Python [str] cells, the only objects this program puts in one. *)
Inductive Series : Type :=
| SObject (xs : list string)
| SFloat (xs : list Q)
| SBool (xs : list bool)
| SInt (w : int_width) (xs : list Z).

Definition series_dtype (s : Series) : dtype :=
  match s with
  | SObject _ => object
  | SFloat _ => float64
  | SBool _ => bool_
  | SInt w _ => int_dtype w
  end.

Definition series_len (s : Series) : nat :=
  match s with
  | SObject xs => List.length xs
  | SFloat xs => List.length xs
  | SBool xs => List.length xs
  | SInt _ xs => List.length xs
  end.

(** The cell of a column at a row, as a Python scalar. *)
Definition series_cell (s : Series) (row : nat) : option PyVal :=
  match s with
  | SObject xs => option_map PStr (nth_error xs row)
  | SFloat xs => option_map PFloat (nth_error xs row)
  | SBool xs => option_map PBool (nth_error xs row)
  | SInt _ xs => option_map PInt (nth_error xs row)
  end.

(** Integer and floating dtypes; [object] and [bool_] are not numeric. *)
Definition numeric_dtype (d : dtype) : bool :=
  match d with
  | object | bool_ => false
  | _ => true
  end.

(** A [DataFrame]: its columns in order, each under its label. *)
Definition DataFrame : Type := list (string * Series).

Definition columns (df : DataFrame) : list string := map fst df.

(** [df[col]]: the column under a label ([None] is pandas' [KeyError]). *)
Fixpoint getitem (df : DataFrame) (col : string) : option Series :=
  match df with
  | [] => None
  | (c, s) :: rest => if String.eqb c col then Some s else getitem rest col
  end.

(** [df[col] = s]: replaces the column under an existing label in place,
    appends a new column otherwise. *)
Fixpoint setitem (df : DataFrame) (col : string) (s : Series) : DataFrame :=
  match df with
  | [] => [(col, s)]
  | (c, s0) :: rest =>
      if String.eqb c col then (c, s) :: rest else (c, s0) :: setitem rest col s
  end.

(** The one-cell column pandas infers for a Python scalar:
    [str] gives [object], [float] gives [float64], [bool] gives [bool],
    [int] gives [int64]. *)
Definition series_of_scalar (v : PyVal) : Series :=
  match v with
  | PStr s => SObject [s]
  | PFloat q => SFloat [q]
  | PBool b => SBool [b]
  | PInt z => SInt W64 [z]
  end.

(** [pd.DataFrame([data])] for one dict: one row, one column per key, in
    the dict's insertion order. *)
Definition DataFrame_of_row (data : list (string * PyVal)) : DataFrame :=
  map (fun kv => (fst kv, series_of_scalar (snd kv))) data.

(* ===================================================================== *)
(** ** [Series.astype("category").cat.codes] and [Series.astype(int)] *)
(* ===================================================================== *)

(** Insertion of a value in a strictly increasing list of strings, in the
    code-point order of Python's [str] comparison. *)
Fixpoint insert_sorted (x : string) (l : list string) : list string :=
  match l with
  | [] => [x]
  | y :: l' =>
      match String.compare x y with
      | Lt => x :: l
      | Eq => l
      | Gt => y :: insert_sorted x l'
      end
  end.

(** The categories of an [object] column: the distinct values that occur
    in the column, sorted. *)
Definition categories (xs : list string) : list string :=
  fold_right insert_sorted [] xs.

Fixpoint index_of (x : string) (l : list string) : option nat :=
  match l with
  | [] => None
  | y :: l' =>
      if String.eqb y x then Some 0%nat
      else option_map S (index_of x l')
  end.

(** The code of a value: its position among the categories, [-1] for a
    value that is not a category. *)
Definition code_of (cats : list string) (x : string) : Z :=
  match index_of x cats with
  | Some i => Z.of_nat i
  | None => (-1)%Z
  end.

(** pandas stores codes in the narrowest signed integer dtype that holds
    the number of categories. *)
Definition codes_width (ncats : nat) : int_width :=
  let n := Z.of_nat ncats in
  if (n <? 127)%Z then W8
  else if (n <? 32767)%Z then W16
  else if (n <? 2147483647)%Z then W32
  else W64.

Definition cat_codes (xs : list string) : Series :=
  let cats := categories xs in
  SInt (codes_width (List.length cats)) (map (code_of cats) xs).

(** [int(b)] of a Python [bool]. *)
Definition Z_of_bool (b : bool) : Z := if b then 1%Z else 0%Z.

(** Truncation toward zero, as numpy casts a finite float to an integer. *)
Definition Qtruncate (q : Q) : Z := Z.quot (Qnum q) (Zpos (Qden q)).

(** [s.astype(int)].  Integer, boolean and float columns always convert.
    An [object] column would be converted cell by cell with [int(str)];
    that case is not modelled ([None]) and is shown below never to be
    reached by the program. *)
Definition astype_int (s : Series) : option Series :=
  match s with
  | SObject _ => None
  | SFloat xs => Some (SInt W64 (map Qtruncate xs))
  | SBool xs => Some (SInt W64 (map Z_of_bool xs))
  | SInt _ xs => Some (SInt W64 xs)
  end.

(* ===================================================================== *)
(** ** The record of one submission *)
(* ===================================================================== *)

(** The nine fields of a submission, with the Python types the form gives
    them. *)
Record FieldRecord : Type := {
  Region : string;
  Soil_Type : string;
  Crop : string;
  Rainfall_mm : Q;
  Temperature_Celsius : Q;
  Fertilizer_Used : bool;
  Irrigation_Used : bool;
  Weather_Condition : string;
  Days_to_Harvest : Z
}.

(** The [data] dict of [build_input_form] for given field values. *)
Definition record_dict (r : FieldRecord) : list (string * PyVal) :=
  [ ("Region", PStr (Region r));
    ("Soil_Type", PStr (Soil_Type r));
    ("Crop", PStr (Crop r));
    ("Rainfall_mm", PFloat (Rainfall_mm r));
    ("Temperature_Celsius", PFloat (Temperature_Celsius r));
    ("Fertilizer_Used", PBool (Fertilizer_Used r));
    ("Irrigation_Used", PBool (Irrigation_Used r));
    ("Weather_Condition", PStr (Weather_Condition r));
    ("Days_to_Harvest", PInt (Days_to_Harvest r)) ].

(** The single-row table of a submission. *)
Definition record_frame (r : FieldRecord) : DataFrame :=
  DataFrame_of_row (record_dict r).

(* ===================================================================== *)
(** ** Exceptions, outcomes and the browser-side state *)
(* ===================================================================== *)

(** An exception: its class and what [str(e)] returns. *)
Record exn : Type := Exception { exn_class : string; exn_str : string }.

(** How a computation of the script ends. *)
Inductive outcome (A : Type) : Type :=
| Return (a : A)
| Raise (e : exn)
| Stopped.
Arguments Return {A} a.
Arguments Raise {A} e.
Arguments Stopped {A}.

(** File contents. *)
Definition bytes : Type := string.

(** What the browser holds for the widgets when the script runs: the
    option picked in each select box, the number typed in each number
    input (one per Python number type), the buttons pressed, all keyed by
    the widget's label, and the file in the uploader.  [None] is a widget
    the user has not touched. *)
Record UI : Type := {
  ui_selected : string -> option nat;
  ui_float : string -> option Q;
  ui_int : string -> option Z;
  ui_clicked : string -> bool;
  ui_uploaded : option bytes
}.

(** Elements the script renders on the page. *)
Inductive Output : Type :=
| OTitle (text : string)
| OWrite (text : string)
| OError (text : string)
| OException (e : exn)
| OSuccess (yield_value : Q)
| ODataframe (expander : string) (table : DataFrame).

(** Events of interest outside the page: deserialisation attempts and
    calls of the model's [predict], with the table passed. *)
Inductive Event : Type :=
| PickleLoad (path : string)
| JoblibLoad (path : string)
| PredictCall (model : nat) (table : DataFrame).

(** Reading a file: its contents, or the exception [open] raises when
    there is no file under the path. *)
Definition file_contents (fs : gmap string bytes) (path : string) : exn + bytes :=
  match fs !! path with
  | Some b => inr b
  | None => inl (Exception "FileNotFoundError"
                   ("[Errno 2] No such file or directory: '" ++ path ++ "'"))
  end.

(** [os.path.join] of two components (POSIX). *)
Definition ends_with_slash (s : string) : bool :=
  match String.get (String.length s - 1) s with
  | Some c => Ascii.eqb c "/"%char
  | None => false
  end.

Definition os_path_join (a b : string) : string :=
  if String.prefix "/" b then b
  else if String.eqb a "" then b
  else if ends_with_slash a then a ++ b
  else a ++ "/" ++ b.

(* ===================================================================== *)
(** ** The world of the script and its computations *)
(* ===================================================================== *)

Section App.

(** The class of the model object: the state of an instance, and its
    [predict] method.  [predict m table] gives the exception raised or the
    predictions returned, what the call leaves in the table it was handed
    (a model may write to its argument), and the model's state afterwards.
    Nothing is assumed of it. *)
Context {Model : Type}.
Variable predict : Model -> DataFrame -> (exn + list Q) * DataFrame * Model.

(** [pickle.load] and [joblib.load] on the contents of a file. *)
Variable pickle_load : bytes -> exn + Model.
Variable joblib_load : bytes -> exn + Model.

(** [os.path.dirname(__file__)]. *)
Variable script_dir : string.

Record World : Type := {
  frames : list DataFrame;       (* DataFrame objects; a reference is a position *)
  models : list Model;           (* deserialised model objects, likewise *)
  files : gmap string bytes;     (* the file system *)
  cache : gmap string nat;       (* st.cache_resource: path to model reference *)
  ui : UI;                       (* widget state of this run *)
  screen : list Output;          (* elements rendered so far, oldest first *)
  events : list Event            (* loads and predict calls so far, oldest first *)
}.

Definition with_frames (f : list DataFrame) (w : World) : World :=
  {| frames := f; models := models w; files := files w; cache := cache w;
     ui := ui w; screen := screen w; events := events w |}.

Definition with_models (m : list Model) (w : World) : World :=
  {| frames := frames w; models := m; files := files w; cache := cache w;
     ui := ui w; screen := screen w; events := events w |}.

Definition with_files (f : gmap string bytes) (w : World) : World :=
  {| frames := frames w; models := models w; files := f; cache := cache w;
     ui := ui w; screen := screen w; events := events w |}.

Definition with_cache (c : gmap string nat) (w : World) : World :=
  {| frames := frames w; models := models w; files := files w; cache := c;
     ui := ui w; screen := screen w; events := events w |}.

Definition with_ui (u : UI) (w : World) : World :=
  {| frames := frames w; models := models w; files := files w; cache := cache w;
     ui := u; screen := screen w; events := events w |}.

Definition with_screen (s : list Output) (w : World) : World :=
  {| frames := frames w; models := models w; files := files w; cache := cache w;
     ui := ui w; screen := s; events := events w |}.

Definition with_events (e : list Event) (w : World) : World :=
  {| frames := frames w; models := models w; files := files w; cache := cache w;
     ui := ui w; screen := screen w; events := e |}.

(** A computation: from a world to an outcome and the world it leaves. *)
Definition M (A : Type) : Type := World -> outcome A * World.

Definition ret {A} (a : A) : M A := fun w => (Return a, w).

Definition raise {A} (e : exn) : M A := fun w => (Raise e, w).

Definition bind {A B} (c : M A) (k : A -> M B) : M B :=
  fun w =>
    match c w with
    | (Return a, w') => k a w'
    | (Raise e, w') => (Raise e, w')
    | (Stopped, w') => (Stopped, w')
    end.

(** [try: body / except Exception as e: handler e].  What the body did
    before raising stays done. *)
Definition try_except {A} (body : M A) (handler : exn -> M A) : M A :=
  fun w =>
    match body w with
    | (Raise e, w') => handler e w'
    | r => r
    end.

(** The result of an external call, raised or returned. *)
Definition lift {A} (r : exn + A) : M A :=
  match r with
  | inl e => raise e
  | inr a => ret a
  end.

Notation "x <- c1 ;; c2" := (bind c1 (fun x => c2))
  (at level 100, c1 at next level, right associativity).
Notation "c1 ;; c2" := (bind c1 (fun _ => c2))
  (at level 100, right associativity).

(** [for x in xs: body x]. *)
Fixpoint for_each {A} (xs : list A) (body : A -> M unit) : M unit :=
  match xs with
  | [] => ret tt
  | x :: rest => body x ;; for_each rest body
  end.

(** *** DataFrame objects *)

(** The contents of the object behind a reference (the empty table for a
    position where nothing was allocated, which the script never holds). *)
Definition frame_at (w : World) (l : nat) : DataFrame :=
  match frames w !! l with
  | Some d => d
  | None => []
  end.

Definition new_frame (d : DataFrame) : M nat :=
  fun w => (Return (List.length (frames w)), with_frames (frames w ++ [d]) w).

Definition read_frame (l : nat) : M DataFrame :=
  fun w => (Return (frame_at w l), w).

(** [df.copy()]: a new object with the same contents. *)
Definition df_copy (l : nat) : M nat :=
  d <- read_frame l ;; new_frame d.

(** [df.columns]. *)
Definition df_columns (l : nat) : M (list string) :=
  d <- read_frame l ;; ret (columns d).

(** [df[col]]. *)
Definition df_getitem (l : nat) (col : string) : M Series :=
  d <- read_frame l ;;
  match getitem d col with
  | Some s => ret s
  | None => raise (Exception "KeyError" ("'" ++ col ++ "'"))
  end.

(** [df[col] = s], on the object itself. *)
Definition df_setitem (l : nat) (col : string) (s : Series) : M unit :=
  fun w => (Return tt, with_frames (<[l := setitem (frame_at w l) col s]> (frames w)) w).

(** [s.astype(int)]. *)
Definition series_astype_int (s : Series) : M Series :=
  match astype_int s with
  | Some s' => ret s'
  | None => raise (Exception "ValueError" "invalid literal for int()")
  end.

(** *** The model object *)

Definition new_model (m : Model) : M nat :=
  fun w => (Return (List.length (models w)), with_models (models w ++ [m]) w).

(** [model.predict(df)]: the call is recorded with the table as passed,
    the table object and the model object are left as the method leaves
    them. *)
Definition model_predict (model : nat) (df : nat) : M (list Q) :=
  fun w =>
    match models w !! model with
    | None => (Raise (Exception "ReferenceError" "no such model object"), w)
    | Some m =>
        let '(r, d', m') := predict m (frame_at w df) in
        let w' :=
          with_events (events w ++ [PredictCall model (frame_at w df)])
            (with_models (<[model := m']> (models w))
               (with_frames (<[df := d']> (frames w)) w)) in
        match r with
        | inl e => (Raise e, w')
        | inr p => (Return p, w')
        end
    end.

(** [float(pred[0])]. *)
Definition first_as_float (pred : list Q) : M Q :=
  match pred with
  | y :: _ => ret y
  | [] => raise (Exception "IndexError"
                   "index 0 is out of bounds for axis 0 with size 0")
  end.

(** *** Files *)

Definition log_event (e : Event) : M unit :=
  fun w => (Return tt, with_events (events w ++ [e]) w).

(** [open(path, "rb")] followed by reading the file. *)
Definition open_rb (path : string) : M bytes :=
  fun w => lift (file_contents (files w) path) w.

(** [with open(path, "wb") as f: f.write(b)]. *)
Definition write_wb (path : string) (b : bytes) : M unit :=
  fun w => (Return tt, with_files (<[path := b]> (files w)) w).

(** [os.path.exists(path)]. *)
Definition os_path_exists (path : string) : M bool :=
  fun w => (Return (bool_decide (is_Some (files w !! path))), w).

(** *** Streamlit *)

Definition render (o : Output) : M unit :=
  fun w => (Return tt, with_screen (screen w ++ [o]) w).

Definition st_title (s : string) : M unit := render (OTitle s).
Definition st_write (s : string) : M unit := render (OWrite s).
Definition st_error (s : string) : M unit := render (OError s).
Definition st_exception (e : exn) : M unit := render (OException e).

(** [st.success(f"Predicted Yield: {yield_value:.3f} tons per hectare")]:
    the element is recorded with the value it shows. *)
Definition st_success (yield_value : Q) : M unit := render (OSuccess yield_value).

(** [with st.expander(label): st.dataframe(df)]: the table is shown with
    the contents the object has at that moment. *)
Definition st_expander_dataframe (label : string) (df : nat) : M unit :=
  d <- read_frame df ;; render (ODataframe label d).

(** [st.stop()]. *)
Definition st_stop {A} : M A := fun w => (Stopped, w).

(** [st.file_uploader(...)]. *)
Definition st_file_uploader : M (option bytes) :=
  fun w => (Return (ui_uploaded (ui w)), w).

(** [st.form_submit_button(label)]. *)
Definition st_form_submit_button (label : string) : M bool :=
  fun w => (Return (ui_clicked (ui w) label), w).

(** Modelled from the spec: Streamlit's [st.selectbox], not part of the
    repository ("each categorical field is restricted to its fixed
    enumeration"; "the underlying widgets enforce required selection with
    defaults").  The widget returns the option the user picked, the option
    at [index] when the user picked none or the browser holds a position
    outside the options, and fails when [index] itself is outside. *)
Definition st_selectbox (label : string) (options : list string) (index : nat)
  : M string :=
  fun w =>
    let pick :=
      match ui_selected (ui w) label with
      | Some i => if (i <? List.length options)%nat then i else index
      | None => index
      end in
    match nth_error options pick with
    | Some v => (Return v, w)
    | None => (Raise (Exception "StreamlitAPIException"
                        "Selectbox index must be between 0 and length of options"), w)
    end.

Definition Qclamp (lo hi q : Q) : Q :=
  if Qle_bool q lo then lo else if Qle_bool hi q then hi else q.

Definition Zclamp (lo hi z : Z) : Z :=
  if (z <=? lo)%Z then lo else if (hi <=? z)%Z then hi else z.

(** Modelled from the spec: Streamlit's [st.number_input] with float
    arguments, not part of the repository ("each numeric field is clamped
    to an explicit [min, max] range with a default value and step size").
    The widget returns [value] until the user types a number, then that
    number clamped to the range; it fails when [value] is outside the
    range.  The step drives the increment buttons only. *)
Definition st_number_input_float (label : string) (min_value max_value value step : Q)
  : M Q :=
  fun w =>
    if Qle_bool min_value value && Qle_bool value max_value then
      match ui_float (ui w) label with
      | Some q => (Return (Qclamp min_value max_value q), w)
      | None => (Return value, w)
      end
    else (Raise (Exception "StreamlitAPIException"
                   "The default value is outside the min_value / max_value range"), w).

(** Modelled from the spec: [st.number_input] with int arguments, as
    above; it returns a Python [int]. *)
Definition st_number_input_int (label : string) (min_value max_value value step : Z)
  : M Z :=
  fun w =>
    if (min_value <=? value)%Z && (value <=? max_value)%Z then
      match ui_int (ui w) label with
      | Some z => (Return (Zclamp min_value max_value z), w)
      | None => (Return value, w)
      end
    else (Raise (Exception "StreamlitAPIException"
                   "The default value is outside the min_value / max_value range"), w).

(** [int(x)] of a Python [int]. *)
Definition int (z : Z) : Z := z.

(* ===================================================================== *)
(** ** The program *)
(* ===================================================================== *)

(** [load_model], the function under the decorator: the body that runs
    when the path is not in the resource cache. *)
Definition load_model (model_path : string) : M nat :=
  try_except
    (log_event (PickleLoad model_path) ;;
     f <- open_rb model_path ;;
     m <- lift (pickle_load f) ;;
     new_model m)
    (fun pickle_error =>
       try_except
         (log_event (JoblibLoad model_path) ;;
          f <- open_rb model_path ;;
          m <- lift (joblib_load f) ;;
          new_model m)
         (fun joblib_error =>
            raise (Exception "RuntimeError"
                     ("Unable to load model. Tried pickle and joblib. "
                      ++ "Pickle error: " ++ exn_str pickle_error
                      ++ ". Joblib error: " ++ exn_str joblib_error)))).

(** Modelled from the spec: [@st.cache_resource], Streamlit's decorator,
    not part of the repository ("loaded once per path, cached for the
    process lifetime keyed by path").  A path in the cache gives the
    object stored for it; otherwise the function runs and a returned
    object is stored, an exception is not. *)
Definition cache_resource (f : string -> M nat) (path : string) : M nat :=
  fun w =>
    match cache w !! path with
    | Some r => (Return r, w)
    | None =>
        match f path w with
        | (Return r, w') => (Return r, with_cache (<[path := r]> (cache w')) w')
        | other => other
        end
    end.

(** [load_model] as the script calls it. *)
Definition load_model_cached : string -> M nat := cache_resource load_model.

(** [build_input_form]: returns the state of the submit button and a
    reference to the new one-row table.  The [with] blocks ([st.form],
    the two columns) only place the widgets. *)
Definition build_input_form : M (bool * nat) :=
  region <- st_selectbox "Region" ["North"; "East"; "South"; "West"] 0 ;;
  soil_type <- st_selectbox "Soil Type"
                 ["Clay"; "Sandy"; "Loam"; "Silt"; "Peaty"; "Chalky"] 0 ;;
  crop <- st_selectbox "Crop"
            ["Wheat"; "Rice"; "Maize"; "Barley"; "Soybean"; "Cotton"] 0 ;;
  weather_condition <- st_selectbox "Weather Condition" ["Sunny"; "Rainy"; "Cloudy"] 0 ;;
  rainfall_mm <- st_number_input_float "Rainfall (mm)" 0 5000 800 1 ;;
  temperature_c <- st_number_input_float "Temperature (°C)" (-20) 60 25 (1 # 10) ;;
  days_to_harvest <- st_number_input_int "Days to Harvest" 30 400 120 1 ;;
  fertilizer_used <- st_selectbox "Fertilizer Used" ["Yes"; "No"] 0 ;;
  irrigation_used <- st_selectbox "Irrigation Used" ["Yes"; "No"] 0 ;;
  submitted <- st_form_submit_button "Predict Yield" ;;
  let data :=
    [ ("Region", PStr region);
      ("Soil_Type", PStr soil_type);
      ("Crop", PStr crop);
      ("Rainfall_mm", PFloat rainfall_mm);
      ("Temperature_Celsius", PFloat temperature_c);
      ("Fertilizer_Used", PBool (String.eqb fertilizer_used "Yes"));
      ("Irrigation_Used", PBool (String.eqb irrigation_used "Yes"));
      ("Weather_Condition", PStr weather_condition);
      ("Days_to_Harvest", PInt (int days_to_harvest)) ] in
  df <- new_frame (DataFrame_of_row data) ;;
  ret (submitted, df).

(** The [except] block of [encode_if_needed]: the fallback encoding.
    The test [encoded[col].dtype == object] is the case [SObject] of the
    column. *)
Definition fallback_encoding (df : nat) : M nat :=
  encoded <- df_copy df ;;
  cols <- df_columns encoded ;;
  for_each cols (fun col =>
    s <- df_getitem encoded col ;;
    match s with
    | SObject xs => df_setitem encoded col (cat_codes xs)
    | _ => ret tt
    end) ;;
  f <- df_getitem encoded "Fertilizer_Used" ;;
  f' <- series_astype_int f ;;
  df_setitem encoded "Fertilizer_Used" f' ;;
  i <- df_getitem encoded "Irrigation_Used" ;;
  i' <- series_astype_int i ;;
  df_setitem encoded "Irrigation_Used" i' ;;
  ret encoded.

(** [encode_if_needed]. *)
Definition encode_if_needed (model : nat) (df : nat) : M nat :=
  try_except
    (c <- df_copy df ;;
     model_predict model c ;;
     ret df)
    (fun _ => fallback_encoding df).

(** The body of [if submitted:] in [main]. *)
Definition main_submitted (model : nat) (input_df : nat) : M unit :=
  try_except
    (df_for_model <- encode_if_needed model input_df ;;
     pred <- model_predict model df_for_model ;;
     yield_value <- first_as_float pred ;;
     st_success yield_value ;;
     st_expander_dataframe "View input data" input_df ;;
     st_expander_dataframe "View model input (after encoding, if applied)" df_for_model)
    (fun e =>
       st_exception e ;;
       st_error ("Prediction failed. If your model does not include preprocessing, "
                 ++ "please upload a Pipeline or share the expected preprocessing "
                 ++ "so we can align inputs.")).

(** [main].  [st.set_page_config] renders nothing. *)
Definition main : M unit :=
  st_title "🌾 Crop Yield Predictor" ;;
  st_write "Provide the field conditions and get a predicted yield (tons/ha)." ;;
  let default_model_path := os_path_join script_dir "pipeline3_revised.pkl" in
  uploaded <- st_file_uploader ;;
  model_path <-
    match uploaded with
    | Some buffer =>
        let temp_path := os_path_join script_dir "_uploaded_model.tmp" in
        write_wb temp_path buffer ;;
        ret temp_path
    | None => ret default_model_path
    end ;;
  found <- os_path_exists model_path ;;
  (if negb found then
     st_error "No model found. Upload a model file or place 'model.pkl' next to app.py." ;;
     st_stop
   else ret tt) ;;
  model <- load_model_cached model_path ;;
  form <- build_input_form ;;
  let '(submitted, input_df) := form in
  if submitted then main_submitted model input_df else ret tt.

End App.

(* ===================================================================== *)
(** ** Vocabulary of the properties *)
(* ===================================================================== *)

(** The order of Python's [str] comparison. *)
Definition str_lt (a b : string) : Prop := String.compare a b = Lt.

(** [sub] occurs in [s]. *)
Definition contains (sub s : string) : Prop :=
  exists pre post : string, s = (pre ++ sub ++ post)%string.

(** What the loop of the fallback does to one column. *)
Definition encode_column (s : Series) : Series :=
  match s with
  | SObject xs => cat_codes xs
  | _ => s
  end.

(** The loop of the fallback on the contents of the table, one step per
    label visited. *)
Fixpoint encode_cols (cols : list string) (d : DataFrame) : DataFrame :=
  match cols with
  | [] => d
  | c :: rest =>
      encode_cols rest
        match getitem d c with
        | Some (SObject xs) => setitem d c (cat_codes xs)
        | _ => d
        end
  end.

(** [d[col] = d[col].astype(int)] on the contents of the table; [None]
    when the statement raises. *)
Definition cast_flag (d : DataFrame) (col : string) : option DataFrame :=
  match getitem d col with
  | Some s =>
      match astype_int s with
      | Some s' => Some (setitem d col s')
      | None => None
      end
  | None => None
  end.

(** The contents the fallback gives the encoded table; [None] when the
    fallback raises. *)
Definition fallback_frame (d : DataFrame) : option DataFrame :=
  match cast_flag (encode_cols (columns d) d) "Fertilizer_Used" with
  | Some d1 => cast_flag d1 "Irrigation_Used"
  | None => None
  end.


(** The encoded form of a submission: codes for the four categorical
    fields, 0 or 1 for the two flags, the numbers as they were. *)
Definition encoded_record (r : FieldRecord) : DataFrame :=
  [ ("Region", SInt W8 [0%Z]);
    ("Soil_Type", SInt W8 [0%Z]);
    ("Crop", SInt W8 [0%Z]);
    ("Rainfall_mm", SFloat [Rainfall_mm r]);
    ("Temperature_Celsius", SFloat [Temperature_Celsius r]);
    ("Fertilizer_Used", SInt W64 [Z_of_bool (Fertilizer_Used r)]);
    ("Irrigation_Used", SInt W64 [Z_of_bool (Irrigation_Used r)]);
    ("Weather_Condition", SInt W8 [0%Z]);
    ("Days_to_Harvest", SInt W64 [Days_to_Harvest r]) ].

(** The code a value would have if codes were positions in the sorted
    enumeration of a field's possible values. *)
Definition enumeration_code (options : list string) (v : string) : Z :=
  code_of (categories options) v.

(** Label, dtype and number of rows of each column. *)
Definition layout (df : DataFrame) : list (string * dtype * nat) :=
  map (fun cs => (fst cs, series_dtype (snd cs), series_len (snd cs))) df.

(** The Python type of the cell in the first row of each column. *)
Definition cell_types (df : DataFrame) : list (option PyType) :=
  map (fun cs => option_map type_of (series_cell (snd cs) 0)) df.

(** One deserialisation attempt on a path: reading the file, then the
    loader. *)
Definition attempt {Model : Type} (loader : bytes -> exn + Model)
    (fs : gmap string bytes) (path : string) : exn + Model :=
  match file_contents fs path with
  | inl e => inl e
  | inr b => loader b
  end.

(** The world after [model.predict(df.copy())] on a table with contents
    [d]: the call is recorded, the model is in its new state [m'], and the
    copy, as the call left it ([dc]), is the newest table object. *)
Definition after_direct {Model : Type} (r : nat) (d dc : DataFrame) (m' : Model)
    (w : @World Model) : @World Model :=
  with_events (events w ++ [PredictCall r d])
    (with_models (<[r := m']> (models w))
       (with_frames (frames w ++ [dc]) w)).

(** The message of [st.error] when the prediction fails. *)
Definition prediction_hint : string :=
  ("Prediction failed. If your model does not include preprocessing, "
   ++ "please upload a Pipeline or share the expected preprocessing "
   ++ "so we can align inputs.")%string.


(** The world after the direct attempt has raised, the fallback has built
    the table [enc], and [predict] has been called on that table, leaving
    [d2] in it and the model in state [m2]. *)
Definition after_retry {Model : Type} (model : nat) (d dc enc d2 : DataFrame)
    (m2 : Model) (w : @World Model) : @World Model :=
  with_events (events w ++ [PredictCall model d; PredictCall model enc])
    (with_models (<[model := m2]> (models w))
       (with_frames (frames w ++ [dc; d2]) w)).

(** The sentence "each category string is mapped to its position in the
    lexically sorted enumeration of that field's values", read on the
    enumerations of the form, for the record [r] of a submission held at
    [df]. *)
Definition codes_by_enumeration {Model : Type}
    (predict : Model -> DataFrame -> (exn + list Q) * DataFrame * Model)
    (w : @World Model) (model df : nat) (r : FieldRecord) : Prop :=
  exists (encoded : nat) (w' : @World Model) (enc : DataFrame),
    encode_if_needed predict model df w = (Return encoded, w')
    /\ frames w' !! encoded = Some enc
    /\ (exists wd, getitem enc "Region"
          = Some (SInt wd [enumeration_code ["North"; "East"; "South"; "West"]
                             (Region r)]))
    /\ (exists wd, getitem enc "Soil_Type"
          = Some (SInt wd [enumeration_code
                             ["Clay"; "Sandy"; "Loam"; "Silt"; "Peaty"; "Chalky"]
                             (Soil_Type r)]))
    /\ (exists wd, getitem enc "Crop"
          = Some (SInt wd [enumeration_code
                             ["Wheat"; "Rice"; "Maize"; "Barley"; "Soybean"; "Cotton"]
                             (Crop r)]))
    /\ (exists wd, getitem enc "Weather_Condition"
          = Some (SInt wd [enumeration_code ["Sunny"; "Rainy"; "Cloudy"]
                             (Weather_Condition r)])).

(** *** Concrete inputs *)

(** The submission North / Loam / Wheat / Sunny, 800 mm, 25 degrees, 120
    days, fertilizer and irrigation used. *)
Definition scenario_record : FieldRecord :=
  {| Region := "North"; Soil_Type := "Loam"; Crop := "Wheat";
     Rainfall_mm := 800; Temperature_Celsius := 25;
     Fertilizer_Used := true; Irrigation_Used := true;
     Weather_Condition := "Sunny"; Days_to_Harvest := 120 |}.

(** The widgets as the user leaves them for that submission: the options
    picked by position ("Loam" is the third soil type, "Yes" the first
    answer), the numbers typed, the button pressed. *)
Definition scenario_ui : UI :=
  {| ui_selected := fun label =>
       if String.eqb label "Soil Type" then Some 2%nat else Some 0%nat;
     ui_float := fun label =>
       if String.eqb label "Rainfall (mm)" then Some 800%Q else Some 25%Q;
     ui_int := fun _ => Some 120%Z;
     ui_clicked := fun _ => true;
     ui_uploaded := None |}.

(** The same submission with another region and another crop. *)
Definition other_record : FieldRecord :=
  {| Region := "South"; Soil_Type := "Loam"; Crop := "Rice";
     Rainfall_mm := 800; Temperature_Celsius := 25;
     Fertilizer_Used := true; Irrigation_Used := true;
     Weather_Condition := "Sunny"; Days_to_Harvest := 120 |}.

(** A table of two rows. *)
Definition two_rows : DataFrame :=
  [ ("Region", SObject ["West"; "East"]);
    ("Fertilizer_Used", SBool [true; false]);
    ("Irrigation_Used", SBool [false; false]) ].

Definition conversion_error : exn :=
  Exception "ValueError" "could not convert string to float".

(** A bare estimator: it predicts on numeric tables only. *)
Definition numeric_only (m : unit) (d : DataFrame)
  : (exn + list Q) * DataFrame * unit :=
  (if forallb (fun cs => numeric_dtype (series_dtype (snd cs))) d
   then inr [5%Q] else inl conversion_error, d, m).

(** A self-contained pipeline: it predicts on any table. *)
Definition pipeline (m : unit) (d : DataFrame)
  : (exn + list Q) * DataFrame * unit :=
  (inr [5%Q], d, m).

(** A model that fails on every table. *)
Definition broken (m : unit) (d : DataFrame)
  : (exn + list Q) * DataFrame * unit :=
  (inl conversion_error, d, m).

(** A world holding one model object and the table [d]. *)
Definition world_with (d : DataFrame) : @World unit :=
  {| frames := [d]; models := [tt]; files := ∅; cache := ∅;
     ui := scenario_ui; screen := []; events := [] |}.

(** A world before [main] runs: the default model file is in place. *)
Definition fresh_world : @World unit :=
  {| frames := []; models := []; files := {[ "/app/pipeline3_revised.pkl" := "model" ]};
     cache := ∅; ui := scenario_ui; screen := []; events := [] |}.


(** *** Invariants of computations *)

(** A computation keeps a relation when the world it leaves is related to
    the world it started in, however it ends. *)
Definition keeps {Model A : Type} (R : @World Model -> @World Model -> Prop)
    (c : @M Model A) : Prop :=
  forall w, R w (snd (c w)).

(** A computation that never ends in [st.stop()]. *)
Definition never_stops {Model A : Type} (c : @M Model A) : Prop :=
  forall w, fst (c w) <> Stopped.

(** A relation between worlds that looks at one component only. *)
Definition on_field {Model X : Type} (proj : @World Model -> X) (Q : X -> X -> Prop)
  : @World Model -> @World Model -> Prop :=
  fun w w' => Q (proj w) (proj w').

(** A list grown at its end by elements that satisfy [P]. *)
Definition extended_by {E : Type} (P : E -> Prop) (l l' : list E) : Prop :=
  exists tail, l' = l ++ tail /\ Forall P tail.

(** A call of [predict] on the model object [model]. *)
Definition predict_of (model : nat) (e : Event) : Prop :=
  exists t, e = PredictCall model t.

(** A deserialisation attempt. *)
Definition is_load (e : Event) : Prop :=
  exists path, e = PickleLoad path \/ e = JoblibLoad path.

(** The message of [st.error] when there is no model file. *)
Definition no_model_message : string :=
  "No model found. Upload a model file or place 'model.pkl' next to app.py.".

(** What [main] renders before anything else. *)
Definition page_head : list Output :=
  [ OTitle "🌾 Crop Yield Predictor";
    OWrite "Provide the field conditions and get a predicted yield (tons/ha)." ].

(** The widgets as a new session shows them: nothing picked, nothing
    typed, nothing pressed, no file. *)
Definition untouched_ui : UI :=
  {| ui_selected := fun _ => None; ui_float := fun _ => None;
     ui_int := fun _ => None; ui_clicked := fun _ => false;
     ui_uploaded := None |}.

(** The submission of the untouched form. *)
Definition default_record : FieldRecord :=
  {| Region := "North"; Soil_Type := "Clay"; Crop := "Wheat";
     Rainfall_mm := 800; Temperature_Celsius := 25;
     Fertilizer_Used := true; Irrigation_Used := true;
     Weather_Condition := "Sunny"; Days_to_Harvest := 120 |}.


(** The two columns the fallback casts to integers. *)
Definition is_flag (col : string) : bool :=
  String.eqb col "Fertilizer_Used" || String.eqb col "Irrigation_Used".

(** What the fallback makes of the column under a label: the loop's
    encoding, then the cast for the two flags. *)
Definition fallback_column (col : string) (s : Series) : Series :=
  if is_flag col then
    match astype_int (encode_column s) with
    | Some s' => s'
    | None => encode_column s
    end
  else encode_column s.


(** [main] from the test [os.path.exists(model_path)] on, for the path
    chosen before it. *)
Definition main_from_path {Model : Type}
    (predict : Model -> DataFrame -> (exn + list Q) * DataFrame * Model)
    (pickle_load joblib_load : bytes -> exn + Model)
    (model_path : string) : @M Model unit :=
  bind (os_path_exists model_path) (fun found =>
  bind (if negb found then
          bind (st_error no_model_message) (fun _ => st_stop)
        else ret tt) (fun _ =>
  bind (load_model_cached pickle_load joblib_load model_path) (fun model =>
  bind build_input_form (fun form =>
  let '(submitted, input_df) := form in
  if submitted then main_submitted predict model input_df else ret tt)))).

(** The world when [main] reaches that test: the head of the page is
    rendered and an uploaded file is written to the temporary path. *)
Definition world_at_path_test {Model : Type} (script_dir : string)
    (w : @World Model) : @World Model :=
  match ui_uploaded (ui w) with
  | Some buffer =>
      with_files (<[os_path_join script_dir "_uploaded_model.tmp" := buffer]> (files w))
        (with_screen (screen w ++ page_head) w)
  | None => with_screen (screen w ++ page_head) w
  end.

(** The path [main] loads the model from. *)
Definition chosen_path {Model : Type} (script_dir : string) (w : @World Model)
  : string :=
  match ui_uploaded (ui w) with
  | Some _ => os_path_join script_dir "_uploaded_model.tmp"
  | None => os_path_join script_dir "pipeline3_revised.pkl"
  end.




(** *** More concrete inputs *)

(** A table of three rows with a float column beside the region and the
    flags. *)
Definition mixed_rows : DataFrame :=
  [ ("Region", SObject ["West"; "East"; "West"]);
    ("Rainfall_mm", SFloat [100%Q; 250%Q; 75%Q]);
    ("Fertilizer_Used", SBool [true; false; true]);
    ("Irrigation_Used", SBool [false; false; true]) ].

(** A table without the two flag columns. *)
Definition no_flags : DataFrame := [ ("Region", SObject ["West"]) ].

(** Loaders that accept every file, and loaders that reject every file. *)
Definition readable (b : bytes) : exn + unit := inr tt.

Definition unreadable (b : bytes) : exn + unit :=
  inl (Exception "UnpicklingError" "invalid load key").

(** A world where the only file next to the script is [model.pkl]. *)
Definition misnamed_world : @World unit :=
  {| frames := []; models := []; files := {[ "/app/model.pkl" := "model" ]};
     cache := ∅; ui := scenario_ui; screen := []; events := [] |}.

(** A new session over the default model file: nothing touched. *)
Definition idle_world : @World unit :=
  {| frames := []; models := []; files := {[ "/app/pipeline3_revised.pkl" := "model" ]};
     cache := ∅; ui := untouched_ui; screen := []; events := [] |}.

(** A run in which a second file is uploaded after a first upload has been
    loaded and cached. *)
Definition reupload_world : @World unit :=
  {| frames := []; models := [tt];
     files := {[ "/app/_uploaded_model.tmp" := "first upload" ]};
     cache := {[ "/app/_uploaded_model.tmp" := 0%nat ]};
     ui := {| ui_selected := fun _ => None; ui_float := fun _ => None;
              ui_int := fun _ => None; ui_clicked := fun _ => true;
              ui_uploaded := Some "second upload" |};
     screen := []; events := [] |}.

(* ===================================================================== *)
(** ** Strings in order, categories and codes *)
(* ===================================================================== *)

Lemma ascii_compare_refl (a : ascii) : Ascii.compare a a = Eq.
Proof. unfold Ascii.compare. apply N.compare_refl. Qed.

Lemma ascii_compare_lt_trans (a b c : ascii) :
  Ascii.compare a b = Lt -> Ascii.compare b c = Lt -> Ascii.compare a c = Lt.
Proof.
  unfold Ascii.compare. rewrite !N.compare_lt_iff. apply N.lt_trans.
Qed.

Lemma string_compare_refl (s : string) : String.compare s s = Eq.
Proof.
  induction s as [|a s IH]; simpl; [reflexivity|].
  now rewrite ascii_compare_refl.
Qed.

Lemma str_lt_trans (a b c : string) : str_lt a b -> str_lt b c -> str_lt a c.
Proof.
  unfold str_lt. revert b c.
  induction a as [|x a IH]; intros [|y b] [|z c]; simpl; try congruence.
  destruct (Ascii.compare x y) eqn:Hxy; try discriminate.
  - apply Ascii.compare_eq_iff in Hxy; subst y.
    destruct (Ascii.compare x z) eqn:Hxz; try congruence. apply IH.
  - intros _.
    destruct (Ascii.compare y z) eqn:Hyz; try discriminate.
    + apply Ascii.compare_eq_iff in Hyz; subst z. now rewrite Hxy.
    + intros _. now rewrite (ascii_compare_lt_trans x y z).
Qed.

Lemma str_lt_irrefl (a : string) : ~ str_lt a a.
Proof. unfold str_lt. rewrite string_compare_refl. discriminate. Qed.

Lemma compare_Gt_lt (a b : string) : String.compare a b = Gt -> str_lt b a.
Proof.
  unfold str_lt. intros H. rewrite String.compare_antisym, H. reflexivity.
Qed.

Lemma insert_sorted_In (x y : string) (l : list string) :
  In y (insert_sorted x l) <-> y = x \/ In y l.
Proof.
  induction l as [|z l IH]; simpl.
  - intuition.
  - destruct (String.compare x z) eqn:Hc; simpl.
    + apply String.compare_eq_iff in Hc; subst z. intuition.
    + intuition.
    + rewrite IH. intuition.
Qed.

Lemma insert_sorted_sorted (x : string) (l : list string) :
  StronglySorted str_lt l -> StronglySorted str_lt (insert_sorted x l).
Proof.
  induction 1 as [|z l Hs IH Hz]; simpl.
  - constructor; constructor.
  - destruct (String.compare x z) eqn:Hc.
    + now constructor.
    + constructor; [now constructor|].
      constructor; [exact Hc|].
      rewrite List.Forall_forall in Hz. apply List.Forall_forall. intros a Ha.
      apply (str_lt_trans x z a); [exact Hc|now apply Hz].
    + constructor; [exact IH|].
      apply List.Forall_forall. intros a Ha.
      apply insert_sorted_In in Ha. destruct Ha as [->|Ha].
      * now apply compare_Gt_lt.
      * rewrite List.Forall_forall in Hz. now apply Hz.
Qed.

Lemma categories_sorted (xs : list string) : StronglySorted str_lt (categories xs).
Proof.
  induction xs as [|x xs IH]; simpl.
  - constructor.
  - now apply insert_sorted_sorted.
Qed.

Lemma categories_In (xs : list string) (y : string) :
  In y (categories xs) <-> In y xs.
Proof.
  induction xs as [|x xs IH]; simpl.
  - reflexivity.
  - rewrite insert_sorted_In, IH. intuition.
Qed.

Lemma index_of_nth (x : string) (l : list string) (i : nat) :
  index_of x l = Some i -> nth_error l i = Some x.
Proof.
  revert i. induction l as [|y l IH]; simpl; intros i; [discriminate|].
  destruct (String.eqb_spec y x) as [->|Hne].
  - intros [= <-]. reflexivity.
  - destruct (index_of x l) as [j|]; simpl; [|discriminate].
    intros [= <-]. simpl. now apply IH.
Qed.

Lemma index_of_In (x : string) (l : list string) :
  In x l -> exists i, index_of x l = Some i.
Proof.
  induction l as [|y l IH]; simpl; [tauto|].
  intros Hin. destruct (String.eqb_spec y x) as [->|Hne]; [now exists 0%nat|].
  destruct Hin as [Hin|Hin]; [congruence|].
  destruct (IH Hin) as [i ->]. now exists (S i).
Qed.

Lemma code_of_categories (xs : list string) (x : string) :
  In x xs ->
  exists k, code_of (categories xs) x = Z.of_nat k
            /\ nth_error (categories xs) k = Some x.
Proof.
  intros Hin. apply categories_In in Hin.
  destruct (index_of_In _ _ Hin) as [k Hk].
  exists k. unfold code_of. rewrite Hk. split; [reflexivity|].
  now apply index_of_nth.
Qed.

(* ===================================================================== *)
(** ** Columns of a table *)
(* ===================================================================== *)

Lemma getitem_In_columns (d : DataFrame) (c : string) :
  In c (columns d) -> exists s, getitem d c = Some s.
Proof.
  induction d as [|[c0 s0] d IH]; simpl; [tauto|].
  intros [->|Hin].
  - rewrite String.eqb_refl. eauto.
  - destruct (String.eqb c0 c); eauto.
Qed.

Lemma getitem_Some_columns (d : DataFrame) (c : string) (s : Series) :
  getitem d c = Some s -> In c (columns d).
Proof.
  induction d as [|[c0 s0] d IH]; simpl; [discriminate|].
  destruct (String.eqb_spec c0 c) as [->|Hne]; auto.
Qed.

Lemma columns_setitem (d : DataFrame) (c : string) (s : Series) :
  In c (columns d) -> columns (setitem d c s) = columns d.
Proof.
  induction d as [|[c0 s0] d IH]; simpl; [tauto|].
  intros Hin. destruct (String.eqb_spec c0 c) as [->|Hne]; simpl; [reflexivity|].
  f_equal. apply IH. destruct Hin; [congruence|assumption].
Qed.

Lemma getitem_setitem_eq (d : DataFrame) (c : string) (s : Series) :
  getitem (setitem d c s) c = Some s.
Proof.
  induction d as [|[c0 s0] d IH]; simpl.
  - now rewrite String.eqb_refl.
  - destruct (String.eqb c0 c) eqn:E; simpl; now rewrite E.
Qed.

Lemma getitem_setitem_ne (d : DataFrame) (c c' : string) (s : Series) :
  c <> c' -> getitem (setitem d c s) c' = getitem d c'.
Proof.
  intros Hne. induction d as [|[c0 s0] d IH]; simpl.
  - destruct (String.eqb_spec c c'); [congruence|reflexivity].
  - destruct (String.eqb_spec c0 c) as [->|Hne0]; simpl.
    + destruct (String.eqb_spec c c'); [congruence|reflexivity].
    + now rewrite IH.
Qed.

Lemma encode_column_idem (s : Series) :
  encode_column (encode_column s) = encode_column s.
Proof. now destruct s. Qed.


(** One step of the loop acts on the column it visits only. *)
Lemma getitem_encode_step (d : DataFrame) (c col : string) :
  getitem match getitem d c with
          | Some (SObject xs) => setitem d c (cat_codes xs)
          | _ => d
          end col
  = if String.eqb c col then option_map encode_column (getitem d col)
    else getitem d col.
Proof.
  destruct (String.eqb_spec c col) as [->|Hne].
  - destruct (getitem d col) as [[xs| | |]|] eqn:E; simpl; rewrite ?E; try reflexivity.
    apply getitem_setitem_eq.
  - destruct (getitem d c) as [[xs| | |]|]; try reflexivity.
    now apply getitem_setitem_ne.
Qed.

Lemma getitem_encode_cols (cols : list string) (d : DataFrame) (col : string) :
  getitem (encode_cols cols d) col
  = if existsb (fun c => String.eqb c col) cols
    then option_map encode_column (getitem d col)
    else getitem d col.
Proof.
  revert d. induction cols as [|c cols IH]; intros d; simpl; [reflexivity|].
  rewrite IH, getitem_encode_step.
  destruct (String.eqb c col); simpl.
  - destruct (existsb _ cols); [|reflexivity].
    destruct (getitem d col); simpl; [|reflexivity].
    now rewrite encode_column_idem.
  - reflexivity.
Qed.

Lemma existsb_columns (d : DataFrame) (col : string) (s : Series) :
  getitem d col = Some s -> existsb (fun c => String.eqb c col) (columns d) = true.
Proof.
  intros H. apply existsb_exists. exists col. split.
  - eapply getitem_Some_columns; eauto.
  - apply String.eqb_refl.
Qed.

(** After the loop every column that was there is encoded. *)
Lemma getitem_encode_all (d : DataFrame) (col : string) :
  getitem (encode_cols (columns d) d) col = option_map encode_column (getitem d col).
Proof.
  rewrite getitem_encode_cols.
  destruct (getitem d col) as [s|] eqn:E.
  - now rewrite (existsb_columns d col s E).
  - now destruct (existsb _ _).
Qed.

(* ===================================================================== *)
(** ** Running the computations *)
(* ===================================================================== *)

Section Runs.

Context {Model : Type}.
Variable predict : Model -> DataFrame -> (exn + list Q) * DataFrame * Model.

Implicit Types (w : @World Model) (d : DataFrame) (l n r : nat).

Lemma lookup_second_new {A} (fs : list A) (a b : A) :
  (fs ++ [a; b]) !! S (List.length fs) = Some b.
Proof.
  change [a; b] with ([a] ++ [b]). rewrite app_assoc.
  apply list_lookup_middle. rewrite length_app. cbn. lia.
Qed.

Lemma insert_second_new {A} (fs : list A) (a b c : A) :
  <[S (List.length fs) := c]> (fs ++ [a; b]) = fs ++ [a; c].
Proof.
  change [a; b] with ([a] ++ [b]). rewrite app_assoc.
  replace (S (List.length fs)) with (List.length (fs ++ [a]) + 0)%nat
    by (rewrite length_app; cbn; lia).
  rewrite insert_app_r. cbn. now rewrite <- app_assoc.
Qed.

Lemma insert_first_new {A} (fs : list A) (a c : A) :
  <[List.length fs := c]> (fs ++ [a]) = fs ++ [c].
Proof.
  replace (List.length fs) with (List.length fs + 0)%nat at 1 by lia.
  now rewrite insert_app_r.
Qed.

Lemma with_frames_same w : with_frames (frames w) w = w.
Proof. now destruct w. Qed.

Lemma frames_with_frames (f : list DataFrame) w : frames (with_frames f w) = f.
Proof. reflexivity. Qed.

Lemma with_frames_twice (f g : list DataFrame) w :
  with_frames g (with_frames f w) = with_frames g w.
Proof. reflexivity. Qed.

Lemma bind_Return {A B} (c : @M Model A) (k : A -> M B) w w' (a : A) :
  c w = (Return a, w') -> bind c k w = k a w'.
Proof. unfold bind. now intros ->. Qed.

Lemma bind_Raise {A B} (c : @M Model A) (k : A -> M B) w w' (e : exn) :
  c w = (Raise e, w') -> bind c k w = (Raise e, w').
Proof. unfold bind. now intros ->. Qed.

Lemma try_Return {A} (c : @M Model A) (h : exn -> M A) w w' (a : A) :
  c w = (Return a, w') -> try_except c h w = (Return a, w').
Proof. unfold try_except. now intros ->. Qed.

Lemma try_Raise {A} (c : @M Model A) (h : exn -> M A) w w' (e : exn) :
  c w = (Raise e, w') -> try_except c h w = h e w'.
Proof. unfold try_except. now intros ->. Qed.

Lemma run_read_frame w l d :
  frames w !! l = Some d -> read_frame l w = (Return d, w).
Proof. unfold read_frame, frame_at. now intros ->. Qed.

Lemma run_df_copy w l d :
  frames w !! l = Some d ->
  df_copy l w = (Return (List.length (frames w)), with_frames (frames w ++ [d]) w).
Proof.
  intros H. unfold df_copy.
  now rewrite (bind_Return _ _ _ _ _ (run_read_frame _ _ _ H)).
Qed.

Lemma run_df_columns w l d :
  frames w !! l = Some d -> df_columns l w = (Return (columns d), w).
Proof.
  intros H. unfold df_columns.
  now rewrite (bind_Return _ _ _ _ _ (run_read_frame _ _ _ H)).
Qed.

Lemma run_df_getitem w l d (c : string) (s : Series) :
  frames w !! l = Some d -> getitem d c = Some s ->
  df_getitem l c w = (Return s, w).
Proof.
  intros H Hs. unfold df_getitem.
  rewrite (bind_Return _ _ _ _ _ (run_read_frame _ _ _ H)). now rewrite Hs.
Qed.

Lemma run_df_getitem_None w l d (c : string) :
  frames w !! l = Some d -> getitem d c = None ->
  exists e, df_getitem l c w = (Raise e, w).
Proof.
  intros H Hs. unfold df_getitem.
  rewrite (bind_Return _ _ _ _ _ (run_read_frame _ _ _ H)). rewrite Hs.
  eexists. reflexivity.
Qed.

Lemma run_df_setitem w l d (c : string) (s : Series) :
  frames w !! l = Some d ->
  df_setitem l c s w = (Return tt, with_frames (<[l := setitem d c s]> (frames w)) w).
Proof. intros H. unfold df_setitem, frame_at. now rewrite H. Qed.

(** The loop of the fallback, run on the object at [n]. *)
Lemma for_each_encode (cols : list string) n :
  forall w d,
    frames w !! n = Some d ->
    (forall c, In c cols -> In c (columns d)) ->
    for_each cols
      (fun col =>
         bind (df_getitem n col)
           (fun s => match s with
                     | SObject xs => df_setitem n col (cat_codes xs)
                     | _ => ret tt
                     end)) w
    = (Return tt, with_frames (<[n := encode_cols cols d]> (frames w)) w).
Proof.
  induction cols as [|c cols IH]; intros w d Hn Hcols.
  - simpl. unfold ret. now rewrite list_insert_id, with_frames_same.
  - destruct (getitem_In_columns d c) as [s Hs]; [apply Hcols; now left|].
    assert (Hlt : (n < List.length (frames w))%nat) by (eapply lookup_lt_Some; eauto).
    cbn [for_each encode_cols]. rewrite Hs.
    assert (Hstep :
      bind (df_getitem n c)
        (fun s => match s with
                  | SObject xs => df_setitem n c (cat_codes xs)
                  | _ => ret tt
                  end) w
      = (Return tt,
         with_frames (<[n := match s with
                             | SObject xs => setitem d c (cat_codes xs)
                             | _ => d
                             end]> (frames w)) w)).
    { rewrite (bind_Return _ _ _ _ _ (run_df_getitem _ _ _ _ _ Hn Hs)).
      destruct s as [xs| | |];
        try (unfold ret; now rewrite list_insert_id, with_frames_same).
      now apply run_df_setitem. }
    rewrite (bind_Return _ _ _ _ _ Hstep).
    erewrite IH.
    + rewrite frames_with_frames, with_frames_twice, list_insert_insert_eq. reflexivity.
    + rewrite frames_with_frames. now apply list_lookup_insert_eq.
    + intros c' Hc'.
      assert (Hin : In c' (columns d)) by (apply Hcols; now right).
      destruct s as [xs| | |]; try exact Hin.
      rewrite columns_setitem; [exact Hin|]. apply Hcols. now left.
Qed.

Lemma run_cast_flag w n d d' (col : string) {A} (k : @M Model A) :
  frames w !! n = Some d ->
  cast_flag d col = Some d' ->
  bind (df_getitem n col)
    (fun f => bind (series_astype_int f)
                (fun f' => bind (df_setitem n col f') (fun _ => k))) w
  = k (with_frames (<[n := d']> (frames w)) w).
Proof.
  intros Hn Hc. unfold cast_flag in Hc.
  destruct (getitem d col) as [s|] eqn:Hs; [|discriminate].
  destruct (astype_int s) as [s'|] eqn:Hs'; [|discriminate].
  injection Hc as <-.
  rewrite (bind_Return _ _ _ _ _ (run_df_getitem _ _ _ _ _ Hn Hs)).
  unfold series_astype_int. rewrite Hs'.
  rewrite (bind_Return _ _ w w s' eq_refl).
  now rewrite (bind_Return _ _ _ _ _ (run_df_setitem _ _ _ _ _ Hn)).
Qed.

Lemma run_cast_flag_None w n d (col : string) {A} (k : @M Model A) :
  frames w !! n = Some d ->
  cast_flag d col = None ->
  exists e,
    bind (df_getitem n col)
      (fun f => bind (series_astype_int f)
                  (fun f' => bind (df_setitem n col f') (fun _ => k))) w
    = (Raise e, w).
Proof.
  intros Hn Hc. unfold cast_flag in Hc.
  destruct (getitem d col) as [s|] eqn:Hs.
  - destruct (astype_int s) as [s'|] eqn:Hs'; [discriminate|].
    rewrite (bind_Return _ _ _ _ _ (run_df_getitem _ _ _ _ _ Hn Hs)).
    unfold series_astype_int. rewrite Hs'. eexists. reflexivity.
  - destruct (run_df_getitem_None _ _ _ _ Hn Hs) as [e He].
    exists e. now apply bind_Raise.
Qed.

(** The fallback allocates one table and writes to that table only. *)
Lemma fallback_encoding_new_frame w l d :
  frames w !! l = Some d ->
  exists out x,
    fallback_encoding l w = (out, with_frames (frames w ++ [x]) w)
    /\ (forall d', fallback_frame d = Some d' ->
                   out = Return (List.length (frames w)) /\ x = d').
Proof.
  intros Hl. unfold fallback_encoding.
  rewrite (bind_Return _ _ _ _ _ (run_df_copy _ _ _ Hl)).
  set (n := List.length (frames w)).
  set (w2 := with_frames (frames w ++ [d]) w).
  assert (Hn : frames w2 !! n = Some d) by (cbn; now apply list_lookup_middle).
  assert (Hlt : (n < List.length (frames w2))%nat) by (eapply lookup_lt_Some; eauto).
  assert (Hset : forall x, <[n := x]> (frames w2) = frames w ++ [x]).
  { intros x. apply insert_first_new. }
  rewrite (bind_Return _ _ _ _ _ (run_df_columns _ _ _ Hn)).
  rewrite (bind_Return _ _ _ _ _ (for_each_encode _ _ _ _ Hn (fun _ H => H))).
  rewrite Hset.
  set (d0 := encode_cols (columns d) d).
  assert (Hn0 : forall x, frames (with_frames (frames w ++ [x]) w2) !! n = Some x).
  { intros x. cbn. now apply list_lookup_middle. }
  assert (Hset0 : forall x y,
             <[n := y]> (frames (with_frames (frames w ++ [x]) w2)) = frames w ++ [y]).
  { intros x y. apply insert_first_new. }
  unfold fallback_frame. fold d0.
  destruct (cast_flag d0 "Fertilizer_Used") as [d1|] eqn:Hc1.
  - rewrite (run_cast_flag _ _ _ _ _ _ (Hn0 d0) Hc1), Hset0, with_frames_twice.
    destruct (cast_flag d1 "Irrigation_Used") as [d2|] eqn:Hc2.
    + rewrite (run_cast_flag _ _ _ _ _ _ (Hn0 d1) Hc2), Hset0, with_frames_twice.
      exists (Return n), d2. split; [reflexivity|]. now intros d' [= <-].
    + destruct (run_cast_flag_None _ _ _ "Irrigation_Used" (ret n) (Hn0 d1) Hc2)
        as [e He].
      rewrite He. exists (Raise e), d1. split; [reflexivity|discriminate].
  - destruct (run_cast_flag_None _ _ _ "Fertilizer_Used"
                (bind (df_getitem n "Irrigation_Used")
                   (fun i => bind (series_astype_int i)
                      (fun i' => bind (df_setitem n "Irrigation_Used" i')
                                   (fun _ => ret n))))
                (Hn0 d0) Hc1) as [e He].
    rewrite He. exists (Raise e), d0. split; [reflexivity|discriminate].
Qed.

Lemma run_fallback_encoding w l d d' :
  frames w !! l = Some d ->
  fallback_frame d = Some d' ->
  fallback_encoding l w
  = (Return (List.length (frames w)), with_frames (frames w ++ [d']) w).
Proof.
  intros Hl Hf.
  destruct (fallback_encoding_new_frame w l d Hl) as (out & x & Hrun & Hok).
  destruct (Hok d' Hf) as [-> ->]. exact Hrun.
Qed.

Lemma run_model_predict w r l (m m' : Model) d d' (res : exn + list Q) :
  models w !! r = Some m ->
  frames w !! l = Some d ->
  predict m d = (res, d', m') ->
  model_predict predict r l w
  = (match res with inl e => Raise e | inr p => Return p end,
     with_events (events w ++ [PredictCall r d])
       (with_models (<[r := m']> (models w))
          (with_frames (<[l := d']> (frames w)) w))).
Proof.
  intros Hm Hl Hp. unfold model_predict, frame_at. rewrite Hm, Hl, Hp.
  now destruct res.
Qed.

Lemma run_predict_copy w r l (m m' : Model) d dc (res : exn + list Q) :
  models w !! r = Some m ->
  frames w !! l = Some d ->
  predict m d = (res, dc, m') ->
  bind (df_copy l) (fun c => model_predict predict r c) w
  = (match res with inl e => Raise e | inr p => Return p end,
     after_direct r d dc m' w).
Proof.
  intros Hm Hl Hp.
  rewrite (bind_Return _ _ _ _ _ (run_df_copy _ _ _ Hl)).
  erewrite run_model_predict; [| exact Hm | | exact Hp].
  - unfold after_direct. cbn [frames with_frames].
    now rewrite insert_first_new.
  - cbn [frames with_frames]. now apply list_lookup_middle.
Qed.

(** The [try] block of [encode_if_needed]. *)
Lemma run_direct_attempt w r l (m m' : Model) d dc (res : exn + list Q) :
  models w !! r = Some m ->
  frames w !! l = Some d ->
  predict m d = (res, dc, m') ->
  bind (df_copy l) (fun c => bind (model_predict predict r c) (fun _ => ret l)) w
  = (match res with inl e => Raise e | inr _ => Return l end,
     after_direct r d dc m' w).
Proof.
  intros Hm Hl Hp.
  pose proof (run_predict_copy w r l m m' d dc _ Hm Hl Hp) as Hrun.
  unfold bind in *.
  destruct (df_copy l w) as [[c| |] w1].
  - rewrite Hrun. now destruct res.
  - destruct res; congruence.
  - destruct res; discriminate.
Qed.

Lemma encode_if_needed_direct w r l (m m' : Model) d dc (p : list Q) :
  models w !! r = Some m ->
  frames w !! l = Some d ->
  predict m d = (inr p, dc, m') ->
  encode_if_needed predict r l w = (Return l, after_direct r d dc m' w).
Proof.
  intros Hm Hl Hp. unfold encode_if_needed.
  apply try_Return.
  exact (run_direct_attempt w r l m m' d dc _ Hm Hl Hp).
Qed.

Lemma encode_if_needed_raised w r l (m m' : Model) d dc (e : exn) :
  models w !! r = Some m ->
  frames w !! l = Some d ->
  predict m d = (inl e, dc, m') ->
  encode_if_needed predict r l w = fallback_encoding l (after_direct r d dc m' w).
Proof.
  intros Hm Hl Hp. unfold encode_if_needed.
  now rewrite (try_Raise _ _ _ _ _ (run_direct_attempt w r l m m' d dc _ Hm Hl Hp)).
Qed.

Lemma encode_if_needed_fallback w r l (m m' : Model) d dc d' (e : exn) :
  models w !! r = Some m ->
  frames w !! l = Some d ->
  predict m d = (inl e, dc, m') ->
  fallback_frame d = Some d' ->
  encode_if_needed predict r l w
  = (Return (S (List.length (frames w))),
     with_frames (frames w ++ [dc; d']) (after_direct r d dc m' w)).
Proof.
  intros Hm Hl Hp Hf.
  rewrite (encode_if_needed_raised w r l m m' d dc e Hm Hl Hp).
  erewrite run_fallback_encoding; [| |exact Hf].
  - cbn [frames after_direct with_events with_models with_frames].
    rewrite length_app, <- app_assoc. cbn [List.length app].
    do 2 f_equal. lia.
  - cbn. now apply lookup_app_l_Some.
Qed.


End Runs.

(* ===================================================================== *)
(** ** The fallback on the contents of a table *)
(* ===================================================================== *)

Lemma cat_codes_single (s : string) : cat_codes [s] = SInt W8 [0%Z].
Proof.
  unfold cat_codes, code_of. cbn. now rewrite String.eqb_refl.
Qed.

(** The encoded form of a submission is what the fallback computes. *)
Lemma fallback_frame_record (r : FieldRecord) :
  fallback_frame (record_frame r) = Some (encoded_record r).
Proof.
  destruct r as [reg soil crop rain temp fert irr weather days].
  unfold fallback_frame, record_frame, record_dict, DataFrame_of_row, encoded_record.
  cbn -[cat_codes]. now rewrite !cat_codes_single.
Qed.

Lemma encode_column_not_object (s : Series) :
  exists s', astype_int (encode_column s) = Some s'.
Proof. destruct s; cbn; eauto. Qed.

Lemma cast_flag_getitem (d d' : DataFrame) (c col : string) (wd : int_width) (zs : list Z) :
  cast_flag d c = Some d' ->
  getitem d col = Some (SInt wd zs) ->
  exists wd', getitem d' col = Some (SInt wd' zs).
Proof.
  unfold cast_flag. intros Hc Hg.
  destruct (getitem d c) as [s|] eqn:Hs; [|discriminate].
  destruct (astype_int s) as [s'|] eqn:Hs'; [|discriminate].
  injection Hc as <-.
  destruct (String.eqb_spec c col) as [->|Hne].
  - rewrite getitem_setitem_eq. rewrite Hg in Hs. injection Hs as <-.
    cbn in Hs'. injection Hs' as <-. eauto.
  - rewrite getitem_setitem_ne by assumption. eauto.
Qed.

(** The fallback returns as soon as the table has the two flag columns:
    the cast never meets an [object] column, the loop has replaced them
    all. *)
Lemma fallback_frame_defined (d : DataFrame) (f i : Series) :
  getitem d "Fertilizer_Used" = Some f ->
  getitem d "Irrigation_Used" = Some i ->
  exists d', fallback_frame d = Some d'.
Proof.
  intros Hf Hi. unfold fallback_frame.
  set (d0 := encode_cols (columns d) d).
  assert (H0 : forall col, getitem d0 col = option_map encode_column (getitem d col))
    by (intros col; apply getitem_encode_all).
  destruct (encode_column_not_object f) as [f' Hf'].
  destruct (encode_column_not_object i) as [i' Hi'].
  assert (H1 : cast_flag d0 "Fertilizer_Used" = Some (setitem d0 "Fertilizer_Used" f')).
  { unfold cast_flag. rewrite H0, Hf. cbn [option_map]. now rewrite Hf'. }
  rewrite H1. unfold cast_flag.
  rewrite getitem_setitem_ne by discriminate.
  rewrite H0, Hi. cbn [option_map]. rewrite Hi'. eauto.
Qed.

(** What the fallback puts in place of an [object] column. *)
Lemma fallback_frame_object (d d' : DataFrame) (col : string) (xs : list string) :
  fallback_frame d = Some d' ->
  getitem d col = Some (SObject xs) ->
  exists wd, getitem d' col = Some (SInt wd (map (code_of (categories xs)) xs)).
Proof.
  unfold fallback_frame. intros Hf Hg.
  destruct (cast_flag (encode_cols (columns d) d) "Fertilizer_Used") as [d1|] eqn:H1;
    [|discriminate].
  assert (H0 : getitem (encode_cols (columns d) d) col = Some (cat_codes xs)).
  { now rewrite getitem_encode_all, Hg. }
  destruct (cast_flag_getitem _ _ _ _ _ _ H1 H0) as [wd1 Hd1].
  exact (cast_flag_getitem _ _ _ _ _ _ Hf Hd1).
Qed.

(* ===================================================================== *)
(** ** Properties of [encode_if_needed] *)
(* ===================================================================== *)

Section EncodeIfNeeded.

Context {Model : Type}.
Variable predict : Model -> DataFrame -> (exn + list Q) * DataFrame * Model.

Implicit Types (w : @World Model) (d : DataFrame) (r : FieldRecord).

(** C1.  When [model.predict] raises on the raw record of a submission,
    [encode_if_needed] returns a table with the same columns in which each
    categorical ([object]) column has become a column of integer codes and
    the two flags have become the [int64] values 0 or 1; every column of
    that table has a numeric dtype. *)
Theorem encode_if_needed_fallback_numeric
    w (model df : nat) (m m' : Model) r (e : exn) (dc : DataFrame) :
  models w !! model = Some m ->
  frames w !! df = Some (record_frame r) ->
  predict m (record_frame r) = (inl e, dc, m') ->
  exists (encoded : nat) w' (enc : DataFrame),
    encode_if_needed predict model df w = (Return encoded, w')
    /\ frames w' !! encoded = Some enc
    /\ columns enc = columns (record_frame r)
    /\ (forall col xs,
          getitem (record_frame r) col = Some (SObject xs) ->
          exists wd codes,
            getitem enc col = Some (SInt wd codes)
            /\ List.length codes = List.length xs)
    /\ getitem enc "Fertilizer_Used" = Some (SInt W64 [Z_of_bool (Fertilizer_Used r)])
    /\ getitem enc "Irrigation_Used" = Some (SInt W64 [Z_of_bool (Irrigation_Used r)])
    /\ Forall (fun cs => numeric_dtype (series_dtype (snd cs)) = true) enc.
Proof.
  intros Hm Hdf Hp.
  pose proof (fallback_frame_record r) as Hf.
  eexists _, _, (encoded_record r).
  split; [exact (encode_if_needed_fallback predict w model df m m' _ dc _ e Hm Hdf Hp Hf)|].
  split.
  { apply lookup_second_new. }
  split; [reflexivity|].
  split.
  { intros col xs Hg.
    destruct (fallback_frame_object _ _ col xs Hf Hg) as [wd Hwd].
    exists wd, (map (code_of (categories xs)) xs). split; [exact Hwd|].
    apply length_map. }
  split; [reflexivity|].
  split; [reflexivity|].
  repeat constructor.
Qed.

(** C3.  When [model.predict] returns on the raw table, [encode_if_needed]
    returns the reference it was given, the table behind it is as it was,
    and the fallback has not run: the only table object added is the copy
    handed to [predict], and [predict] has been called once. *)
Theorem encode_if_needed_direct_unchanged
    w (model df : nat) (m m' : Model) d (p : list Q) (dc : DataFrame) :
  models w !! model = Some m ->
  frames w !! df = Some d ->
  predict m d = (inr p, dc, m') ->
  exists w',
    encode_if_needed predict model df w = (Return df, w')
    /\ frames w' !! df = Some d
    /\ frames w' = frames w ++ [dc]
    /\ events w' = events w ++ [PredictCall model d].
Proof.
  intros Hm Hdf Hp. exists (after_direct model d dc m' w).
  split; [exact (encode_if_needed_direct predict w model df m m' d dc p Hm Hdf Hp)|].
  split; [cbn; now apply lookup_app_l_Some|].
  split; reflexivity.
Qed.

(** C4, as the code has it.  When the fallback runs on a table, each
    [object] column is replaced by integer codes, and the code of a cell
    is the position of its string in the sorted list of the distinct
    strings that occur in that column of that table (not in the
    enumeration of the field's possible values); in a one-row table that
    position is 0. *)
Theorem fallback_codes_are_positions_in_column
    w (model df : nat) (m m' : Model) d (e : exn) (dc : DataFrame) (f i : Series) :
  models w !! model = Some m ->
  frames w !! df = Some d ->
  NoDup (columns d) ->
  getitem d "Fertilizer_Used" = Some f ->
  getitem d "Irrigation_Used" = Some i ->
  predict m d = (inl e, dc, m') ->
  exists (encoded : nat) w' (enc : DataFrame),
    encode_if_needed predict model df w = (Return encoded, w')
    /\ frames w' !! encoded = Some enc
    /\ forall col xs,
         getitem d col = Some (SObject xs) ->
         StronglySorted str_lt (categories xs)
         /\ (forall x, In x (categories xs) <-> In x xs)
         /\ exists wd codes,
              getitem enc col = Some (SInt wd codes)
              /\ List.length codes = List.length xs
              /\ (forall row x,
                    nth_error xs row = Some x ->
                    exists k, nth_error codes row = Some (Z.of_nat k)
                              /\ nth_error (categories xs) k = Some x)
              /\ (forall x, xs = [x] -> codes = [0%Z]).
Proof.
  intros Hm Hdf _ Hfert Hirr Hp.
  destruct (fallback_frame_defined d f i Hfert Hirr) as [enc Hf].
  eexists _, _, enc.
  split; [exact (encode_if_needed_fallback predict w model df m m' _ dc _ e Hm Hdf Hp Hf)|].
  split.
  { apply lookup_second_new. }
  intros col xs Hg.
  split; [apply categories_sorted|].
  split; [intros x; apply categories_In|].
  destruct (fallback_frame_object _ _ col xs Hf Hg) as [wd Hwd].
  exists wd, (map (code_of (categories xs)) xs).
  split; [exact Hwd|]. split; [apply length_map|]. split.
  - intros row x Hrow.
    destruct (code_of_categories xs x) as (k & Hk & Hnth).
    { eapply nth_error_In; eauto. }
    exists k. split; [|exact Hnth].
    rewrite nth_error_map, Hrow. cbn. now rewrite Hk.
  - intros x ->. pose proof (cat_codes_single x) as Hc.
    unfold cat_codes in Hc. injection Hc as Hc. cbn. now rewrite Hc.
Qed.

(** C5.  Two submissions that differ in their categorical choices only
    are encoded to the same table by the fallback: each categorical column
    of the one-row table becomes the single code 0, whichever category was
    chosen. *)
Theorem fallback_forgets_categories
    (w1 w2 : @World Model) (model1 model2 df1 df2 : nat) (m1 m1' m2 m2' : Model)
    (r1 r2 : FieldRecord) (e1 e2 : exn) (dc1 dc2 : DataFrame) :
  Rainfall_mm r1 = Rainfall_mm r2 ->
  Temperature_Celsius r1 = Temperature_Celsius r2 ->
  Fertilizer_Used r1 = Fertilizer_Used r2 ->
  Irrigation_Used r1 = Irrigation_Used r2 ->
  Days_to_Harvest r1 = Days_to_Harvest r2 ->
  models w1 !! model1 = Some m1 ->
  models w2 !! model2 = Some m2 ->
  frames w1 !! df1 = Some (record_frame r1) ->
  frames w2 !! df2 = Some (record_frame r2) ->
  predict m1 (record_frame r1) = (inl e1, dc1, m1') ->
  predict m2 (record_frame r2) = (inl e2, dc2, m2') ->
  exists (enc1 enc2 : nat) (w1' w2' : @World Model) (enc : DataFrame),
    encode_if_needed predict model1 df1 w1 = (Return enc1, w1')
    /\ encode_if_needed predict model2 df2 w2 = (Return enc2, w2')
    /\ frames w1' !! enc1 = Some enc
    /\ frames w2' !! enc2 = Some enc
    /\ forall col,
         In col ["Region"; "Soil_Type"; "Crop"; "Weather_Condition"] ->
         series_dtype <$> getitem (record_frame r1) col = Some object
         /\ getitem enc col = Some (SInt W8 [0%Z]).
Proof.
  intros Hrain Htemp Hfert Hirr Hdays Hm1 Hm2 Hdf1 Hdf2 Hp1 Hp2.
  eexists _, _, _, _, (encoded_record r1).
  split; [exact (encode_if_needed_fallback predict w1 model1 df1 m1 m1' _ dc1 _ e1
                   Hm1 Hdf1 Hp1 (fallback_frame_record r1))|].
  split; [exact (encode_if_needed_fallback predict w2 model2 df2 m2 m2' _ dc2 _ e2
                   Hm2 Hdf2 Hp2 (fallback_frame_record r2))|].
  split; [apply lookup_second_new|].
  split.
  { cbn [frames with_frames]. rewrite lookup_second_new. f_equal.
    unfold encoded_record. now rewrite Hrain, Htemp, Hfert, Hirr, Hdays. }
  intros col Hcol. cbn in Hcol.
  destruct Hcol as [<-|[<-|[<-|[<-|[]]]]]; split; reflexivity.
Qed.

End EncodeIfNeeded.

(* ===================================================================== *)
(** ** Properties of a submission in [main] *)
(* ===================================================================== *)

Section Submission.

Context {Model : Type}.
Variable predict : Model -> DataFrame -> (exn + list Q) * DataFrame * Model.

Implicit Types (w : @World Model) (d : DataFrame) (r : FieldRecord).

Lemma run_retry w (model : nat) (m m1 m2 : Model) d enc dc d2 (res : exn + list Q) :
  models w !! model = Some m ->
  predict m1 enc = (res, d2, m2) ->
  model_predict predict model (S (List.length (frames w)))
    (with_frames (frames w ++ [dc; enc]) (after_direct model d dc m1 w))
  = (match res with inl e => Raise e | inr p => Return p end,
     after_retry model d dc enc d2 m2 w).
Proof.
  intros Hm Hp2.
  assert (Hlt : (model < List.length (models w))%nat) by (eapply lookup_lt_Some; eauto).
  erewrite run_model_predict; [| | |exact Hp2].
  - f_equal. destruct w as [fs ms fl ca u sc ev].
    cbv [after_retry after_direct with_events with_models with_frames
         frames models events files cache ui screen].
    f_equal.
    + apply insert_second_new.
    + apply list_insert_insert_eq.
    + now rewrite <- app_assoc.
  - cbn. now apply list_lookup_insert_eq.
  - apply lookup_second_new.
Qed.

(** C6.  When [predict] raises on the raw record and raises again on the
    encoded record, the submission ends normally with two elements added
    to the page, the exception of the second call and the hint to supply a
    self-contained pipeline; no yield is shown, and [predict] has been
    called exactly twice, on the raw and on the encoded record. *)
Theorem main_submitted_both_fail
    w (model input_df : nat) (m m1 m2 : Model) r (e1 e2 : exn) (dc d2 : DataFrame) :
  models w !! model = Some m ->
  frames w !! input_df = Some (record_frame r) ->
  predict m (record_frame r) = (inl e1, dc, m1) ->
  predict m1 (encoded_record r) = (inl e2, d2, m2) ->
  exists w',
    main_submitted predict model input_df w = (Return tt, w')
    /\ screen w' = screen w ++ [OException e2; OError prediction_hint]
    /\ (forall y, In (OSuccess y) (screen w') -> In (OSuccess y) (screen w))
    /\ events w' = events w ++ [PredictCall model (record_frame r);
                                PredictCall model (encoded_record r)].
Proof.
  intros Hm Hdf Hp1 Hp2.
  pose proof (encode_if_needed_fallback predict w model input_df m m1 _ dc _ e1
                Hm Hdf Hp1 (fallback_frame_record r)) as Henc.
  pose proof (run_retry w model m m1 m2 (record_frame r) _ dc d2 _ Hm Hp2) as Hretry.
  unfold main_submitted.
  erewrite try_Raise.
  2:{ rewrite (bind_Return _ _ _ _ _ Henc). apply bind_Raise. exact Hretry. }
  eexists. split; [reflexivity|].
  split; [cbn; now rewrite <- app_assoc|].
  split; [|reflexivity].
  intros y. cbn. rewrite <- app_assoc. intros Hin.
  apply in_app_or in Hin. destruct Hin as [Hin|Hin]; [exact Hin|].
  cbn in Hin. destruct Hin as [Hin|[Hin|[]]]; discriminate.
Qed.




End Submission.

(* ===================================================================== *)
(** ** Properties of [load_model] *)
(* ===================================================================== *)

Lemma append_assoc (a b c : string) : ((a ++ b) ++ c = a ++ b ++ c)%string.
Proof.
  induction a as [|x a IH]; [reflexivity|].
  change (String x ((a ++ b) ++ c) = String x (a ++ b ++ c))%string.
  now rewrite IH.
Qed.

Lemma contains_middle (pre sub post : string) : contains sub (pre ++ sub ++ post).
Proof. now exists pre, post. Qed.

Lemma contains_end (pre sub : string) : contains sub (pre ++ sub).
Proof.
  exists pre, ""%string. f_equal.
  induction sub as [|x sub IH]; [reflexivity|].
  change (String x sub = String x (sub ++ ""))%string. now rewrite <- IH.
Qed.

Section LoadModel.

Context {Model : Type}.
Variable pickle_load : bytes -> exn + Model.
Variable joblib_load : bytes -> exn + Model.

Implicit Types (w : @World Model).

(** One attempt, run: the event is recorded; a loaded object is stored as
    a new model object, a failure raises and stores nothing. *)
Lemma run_attempt (loader : bytes -> exn + Model) (ev : Event) (path : string) w :
  bind (log_event ev)
    (fun _ => bind (open_rb path)
       (fun f => bind (lift (loader f)) (fun m => new_model m))) w
  = match attempt loader (files w) path with
    | inr m => (Return (List.length (models w)),
                with_models (models w ++ [m]) (with_events (events w ++ [ev]) w))
    | inl e => (Raise e, with_events (events w ++ [ev]) w)
    end.
Proof.
  unfold attempt, bind, log_event, open_rb. cbn [files with_events].
  destruct (file_contents (files w) path) as [e|b]; [reflexivity|].
  cbn. destruct (loader b); reflexivity.
Qed.

(** C2.  [load_model] first attempts pickle; only when that attempt fails
    does it attempt joblib; when both fail it raises one [RuntimeError]
    whose message contains the message of the pickle error and the message
    of the joblib error, and no model object has been created. *)
Theorem load_model_pickle_then_joblib (path : string) w :
  match attempt pickle_load (files w) path with
  | inr m =>
      load_model pickle_load joblib_load path w
      = (Return (List.length (models w)),
         with_models (models w ++ [m])
           (with_events (events w ++ [PickleLoad path]) w))
  | inl pickle_error =>
      match attempt joblib_load (files w) path with
      | inr m =>
          load_model pickle_load joblib_load path w
          = (Return (List.length (models w)),
             with_models (models w ++ [m])
               (with_events (events w ++ [PickleLoad path; JoblibLoad path]) w))
      | inl joblib_error =>
          exists err,
            load_model pickle_load joblib_load path w
            = (Raise err,
               with_events (events w ++ [PickleLoad path; JoblibLoad path]) w)
            /\ exn_class err = "RuntimeError"
            /\ contains (exn_str pickle_error) (exn_str err)
            /\ contains (exn_str joblib_error) (exn_str err)
      end
  end.
Proof.
  pose proof (run_attempt pickle_load (PickleLoad path) path w) as H1.
  destruct (attempt pickle_load (files w) path) as [e1|m1].
  2:{ unfold load_model. now apply try_Return. }
  pose proof (run_attempt joblib_load (JoblibLoad path) path
                (with_events (events w ++ [PickleLoad path]) w)) as H2.
  cbn [files with_events] in H2.
  destruct (attempt joblib_load (files w) path) as [e2|m2].
  - exists (Exception "RuntimeError"
              ("Unable to load model. Tried pickle and joblib. "
               ++ "Pickle error: " ++ exn_str e1
               ++ ". Joblib error: " ++ exn_str e2)).
    split; [|split; [reflexivity|split]].
    + unfold load_model. rewrite (try_Raise _ _ _ _ _ H1), (try_Raise _ _ _ _ _ H2).
      unfold raise. f_equal. destruct w; cbn. now rewrite <- app_assoc.
    + cbn [exn_str].
      apply (contains_middle
               "Unable to load model. Tried pickle and joblib. Pickle error: ").
    + cbn [exn_str].
      rewrite <- !append_assoc. apply contains_end.
  - unfold load_model. rewrite (try_Raise _ _ _ _ _ H1), (try_Return _ _ _ _ _ H2).
    f_equal. destruct w; cbn. now rewrite <- app_assoc.
Qed.

(** The decorated function: a path in the cache is answered from the
    cache, without any attempt. *)
Lemma load_model_cached_hit (path : string) (model : nat) w :
  cache w !! path = Some model ->
  load_model_cached pickle_load joblib_load path w = (Return model, w).
Proof. unfold load_model_cached, cache_resource. now intros ->. Qed.

(** A path that is not in the cache runs [load_model]; a returned object
    is stored under the path. *)
Lemma load_model_cached_miss (path : string) w :
  cache w !! path = None ->
  load_model_cached pickle_load joblib_load path w
  = match load_model pickle_load joblib_load path w with
    | (Return model, w') => (Return model, with_cache (<[path := model]> (cache w')) w')
    | other => other
    end.
Proof. unfold load_model_cached, cache_resource. now intros ->. Qed.

End LoadModel.

(* ===================================================================== *)
(** ** Properties of [build_input_form] *)
(* ===================================================================== *)

Section BuildInputForm.

Context {Model : Type}.
Implicit Types (w : @World Model).

Lemma run_st_selectbox (label : string) (options : list string) (index : nat) w :
  (index < List.length options)%nat ->
  exists v, st_selectbox label options index w = (Return v, w) /\ In v options.
Proof.
  intros Hindex. unfold st_selectbox.
  set (pick := match ui_selected (ui w) label with
               | Some i => if (i <? List.length options)%nat then i else index
               | None => index
               end).
  assert (Hpick : (pick < List.length options)%nat).
  { subst pick. destruct (ui_selected (ui w) label) as [i|]; [|exact Hindex].
    destruct (Nat.ltb_spec i (List.length options)); assumption. }
  destruct (nth_error options pick) as [v|] eqn:Hv.
  - exists v. split; [reflexivity|]. eapply nth_error_In; eauto.
  - apply nth_error_None in Hv. lia.
Qed.

Lemma Qclamp_range (lo hi q : Q) :
  (lo <= hi)%Q -> (lo <= Qclamp lo hi q)%Q /\ (Qclamp lo hi q <= hi)%Q.
Proof.
  intros Hlh. unfold Qclamp.
  destruct (Qle_bool q lo) eqn:E1.
  - split; [apply Qle_refl|exact Hlh].
  - destruct (Qle_bool hi q) eqn:E2.
    + split; [exact Hlh|apply Qle_refl].
    + split.
      * apply Qlt_le_weak, Qnot_le_lt. rewrite <- Qle_bool_iff. congruence.
      * apply Qlt_le_weak, Qnot_le_lt. rewrite <- Qle_bool_iff. congruence.
Qed.

Lemma Zclamp_range (lo hi z : Z) :
  (lo <= hi)%Z -> (lo <= Zclamp lo hi z <= hi)%Z.
Proof.
  intros Hlh. unfold Zclamp.
  destruct (Z.leb_spec z lo); [lia|].
  destruct (Z.leb_spec hi z); lia.
Qed.

Lemma run_st_number_input_float (label : string) (lo hi value step : Q) w :
  (lo <= value)%Q -> (value <= hi)%Q ->
  exists q, st_number_input_float label lo hi value step w = (Return q, w)
            /\ (lo <= q)%Q /\ (q <= hi)%Q.
Proof.
  intros H1 H2. unfold st_number_input_float.
  rewrite (proj2 (Qle_bool_iff lo value) H1), (proj2 (Qle_bool_iff value hi) H2).
  cbn [andb].
  destruct (ui_float (ui w) label) as [q|].
  - exists (Qclamp lo hi q). split; [reflexivity|].
    apply Qclamp_range. eapply Qle_trans; eauto.
  - exists value. auto.
Qed.

Lemma run_st_number_input_int (label : string) (lo hi value step : Z) w :
  (lo <= value <= hi)%Z ->
  exists z, st_number_input_int label lo hi value step w = (Return z, w)
            /\ (lo <= z <= hi)%Z.
Proof.
  intros H. unfold st_number_input_int.
  rewrite (proj2 (Z.leb_le lo value)), (proj2 (Z.leb_le value hi)) by lia.
  cbn [andb].
  destruct (ui_int (ui w) label) as [z|].
  - exists (Zclamp lo hi z). split; [reflexivity|]. apply Zclamp_range. lia.
  - exists value. auto.
Qed.

(** The form, run: it returns the state of the button and a new table,
    the one-row table of a record whose categorical fields are among the
    options of their select boxes and whose numbers are within the ranges
    of their inputs. *)
Lemma run_build_input_form w :
  exists r : FieldRecord,
    build_input_form w
    = (Return (ui_clicked (ui w) "Predict Yield", List.length (frames w)),
       with_frames (frames w ++ [record_frame r]) w)
    /\ In (Region r) ["North"; "East"; "South"; "West"]
    /\ In (Soil_Type r) ["Clay"; "Sandy"; "Loam"; "Silt"; "Peaty"; "Chalky"]
    /\ In (Crop r) ["Wheat"; "Rice"; "Maize"; "Barley"; "Soybean"; "Cotton"]
    /\ In (Weather_Condition r) ["Sunny"; "Rainy"; "Cloudy"]
    /\ (0 <= Rainfall_mm r)%Q /\ (Rainfall_mm r <= 5000)%Q
    /\ (-20 <= Temperature_Celsius r)%Q /\ (Temperature_Celsius r <= 60)%Q
    /\ (30 <= Days_to_Harvest r <= 400)%Z.
Proof.
  destruct (run_st_selectbox "Region" ["North"; "East"; "South"; "West"] 0 w)
    as (region & Hregion & Iregion); [cbn; lia|].
  destruct (run_st_selectbox "Soil Type"
              ["Clay"; "Sandy"; "Loam"; "Silt"; "Peaty"; "Chalky"] 0 w)
    as (soil & Hsoil & Isoil); [cbn; lia|].
  destruct (run_st_selectbox "Crop"
              ["Wheat"; "Rice"; "Maize"; "Barley"; "Soybean"; "Cotton"] 0 w)
    as (crop & Hcrop & Icrop); [cbn; lia|].
  destruct (run_st_selectbox "Weather Condition" ["Sunny"; "Rainy"; "Cloudy"] 0 w)
    as (weather & Hweather & Iweather); [cbn; lia|].
  destruct (run_st_number_input_float "Rainfall (mm)" 0 5000 800 1 w)
    as (rain & Hrain & Rrain1 & Rrain2); [discriminate|discriminate|].
  destruct (run_st_number_input_float "Temperature (°C)" (-20) 60 25 (1 # 10) w)
    as (temp & Htemp & Rtemp1 & Rtemp2); [discriminate|discriminate|].
  destruct (run_st_number_input_int "Days to Harvest" 30 400 120 1 w)
    as (days & Hdays & Rdays); [lia|].
  destruct (run_st_selectbox "Fertilizer Used" ["Yes"; "No"] 0 w)
    as (fert & Hfert & _); [cbn; lia|].
  destruct (run_st_selectbox "Irrigation Used" ["Yes"; "No"] 0 w)
    as (irr & Hirr & _); [cbn; lia|].
  exists {| Region := region; Soil_Type := soil; Crop := crop;
            Rainfall_mm := rain; Temperature_Celsius := temp;
            Fertilizer_Used := String.eqb fert "Yes";
            Irrigation_Used := String.eqb irr "Yes";
            Weather_Condition := weather; Days_to_Harvest := days |}.
  split; [|cbn [Region Soil_Type Crop Rainfall_mm Temperature_Celsius
                Weather_Condition Days_to_Harvest]; tauto].
  unfold build_input_form.
  rewrite (bind_Return _ _ _ _ _ Hregion), (bind_Return _ _ _ _ _ Hsoil),
    (bind_Return _ _ _ _ _ Hcrop), (bind_Return _ _ _ _ _ Hweather),
    (bind_Return _ _ _ _ _ Hrain), (bind_Return _ _ _ _ _ Htemp),
    (bind_Return _ _ _ _ _ Hdays), (bind_Return _ _ _ _ _ Hfert),
    (bind_Return _ _ _ _ _ Hirr).
  reflexivity.
Qed.

(** C7.  For every state of the widgets, the form returns a table with
    exactly the nine documented columns, in order, each holding one cell:
    strings ([object]) for the four categorical fields, floats for
    rainfall and temperature, booleans for the two flags, an integer for
    the days to harvest. *)
Theorem build_input_form_nine_typed_fields w :
  exists (submitted : bool) (df : nat) w' (table : DataFrame),
    build_input_form w = (Return (submitted, df), w')
    /\ frames w' !! df = Some table
    /\ layout table
       = [ ("Region", object, 1%nat);
           ("Soil_Type", object, 1%nat);
           ("Crop", object, 1%nat);
           ("Rainfall_mm", float64, 1%nat);
           ("Temperature_Celsius", float64, 1%nat);
           ("Fertilizer_Used", bool_, 1%nat);
           ("Irrigation_Used", bool_, 1%nat);
           ("Weather_Condition", object, 1%nat);
           ("Days_to_Harvest", int64, 1%nat) ]
    /\ cell_types table
       = [ Some Tstr; Some Tstr; Some Tstr; Some Tfloat; Some Tfloat;
           Some Tbool; Some Tbool; Some Tstr; Some Tint ].
Proof.
  destruct (run_build_input_form w) as (r & Hrun & _).
  eexists _, _, _, (record_frame r).
  split; [exact Hrun|].
  split; [cbn; now apply list_lookup_middle|].
  split; reflexivity.
Qed.

(** C8.  For every state of the widgets, the record the form returns has
    its region among the 4 regions, its soil type among the 6 soil types,
    its crop among the 6 crops, its weather condition among the 3
    conditions, its rainfall in [0, 5000], its temperature in [-20, 60]
    and its days to harvest in [30, 400]. *)
Theorem build_input_form_within_enumerations_and_ranges w :
  exists (submitted : bool) (df : nat) w' (r : FieldRecord),
    build_input_form w = (Return (submitted, df), w')
    /\ frames w' !! df = Some (record_frame r)
    /\ In (Region r) ["North"; "East"; "South"; "West"]
    /\ In (Soil_Type r) ["Clay"; "Sandy"; "Loam"; "Silt"; "Peaty"; "Chalky"]
    /\ In (Crop r) ["Wheat"; "Rice"; "Maize"; "Barley"; "Soybean"; "Cotton"]
    /\ In (Weather_Condition r) ["Sunny"; "Rainy"; "Cloudy"]
    /\ (0 <= Rainfall_mm r)%Q /\ (Rainfall_mm r <= 5000)%Q
    /\ (-20 <= Temperature_Celsius r)%Q /\ (Temperature_Celsius r <= 60)%Q
    /\ (30 <= Days_to_Harvest r <= 400)%Z.
Proof.
  destruct (run_build_input_form w) as (r & Hrun & Hrest).
  eexists _, _, _, r.
  split; [exact Hrun|].
  split; [cbn; now apply list_lookup_middle|].
  exact Hrest.
Qed.

End BuildInputForm.

(* ===================================================================== *)
(** ** The scenario of the specification *)
(* ===================================================================== *)

(** C9.  With North, Loam, Wheat and Sunny picked, 800.0 and 25.0 typed,
    120 days, and "Yes" picked for fertilizer and for irrigation, the
    table the form returns is that of this submission: it holds
    [Fertilizer_Used] and [Irrigation_Used] as the boolean [True] and
    [Days_to_Harvest] as the integer 120. *)
Theorem build_input_form_scenario {Model : Type} (w : @World Model) :
  exists (submitted : bool) (df : nat) (w' : @World Model) (table : DataFrame),
    build_input_form (with_ui scenario_ui w) = (Return (submitted, df), w')
    /\ frames w' !! df = Some table
    /\ table = record_frame scenario_record
    /\ getitem table "Fertilizer_Used" = Some (SBool [true])
    /\ getitem table "Irrigation_Used" = Some (SBool [true])
    /\ getitem table "Days_to_Harvest" = Some (SInt W64 [120%Z]).
Proof.
  exists true, (List.length (frames w)),
    (with_frames (frames w ++ [record_frame scenario_record]) (with_ui scenario_ui w)),
    (record_frame scenario_record).
  split; [reflexivity|].
  split; [cbn; now apply list_lookup_middle|].
  repeat split.
Qed.

(* ===================================================================== *)
(** ** The properties at concrete inputs *)
(* ===================================================================== *)

(** The whole script on the scenario, with a bare estimator behind the
    default path: the direct attempt fails, the fallback encodes, the
    retry predicts; the page shows the yield, the raw table and the
    encoded table. *)
Example main_scenario_screen :
  screen (snd (main numeric_only (fun _ => inr tt) (fun _ => inr tt) "/app" fresh_world))
  = [ OTitle "🌾 Crop Yield Predictor";
      OWrite "Provide the field conditions and get a predicted yield (tons/ha).";
      OSuccess 5;
      ODataframe "View input data" (record_frame scenario_record);
      ODataframe "View model input (after encoding, if applied)"
        (encoded_record scenario_record) ].
Proof. vm_compute. reflexivity. Qed.

(** Without a model file the script reports it and stops. *)
Example main_without_model :
  main numeric_only (fun _ => inr tt) (fun _ => inr tt) "/app"
    (world_with (record_frame scenario_record))
  = (Stopped,
     with_screen
       [ OTitle "🌾 Crop Yield Predictor";
         OWrite "Provide the field conditions and get a predicted yield (tons/ha).";
         OError "No model found. Upload a model file or place 'model.pkl' next to app.py." ]
       (world_with (record_frame scenario_record))).
Proof. vm_compute. reflexivity. Qed.

(** In a table of two rows the codes tell the categories apart. *)
Example fallback_two_rows :
  fallback_frame two_rows
  = Some [ ("Region", SInt W8 [1%Z; 0%Z]);
           ("Fertilizer_Used", SInt W64 [1%Z; 0%Z]);
           ("Irrigation_Used", SInt W64 [0%Z; 0%Z]) ].
Proof. reflexivity. Qed.

Lemma encode_if_needed_fallback_numeric_witness :
  models (world_with (record_frame scenario_record)) !! 0%nat = Some tt
  /\ frames (world_with (record_frame scenario_record)) !! 0%nat
     = Some (record_frame scenario_record)
  /\ numeric_only tt (record_frame scenario_record)
     = (inl conversion_error, record_frame scenario_record, tt)
  /\ exists (encoded : nat) (w' : @World unit) (enc : DataFrame),
       encode_if_needed numeric_only 0 0 (world_with (record_frame scenario_record))
       = (Return encoded, w')
       /\ frames w' !! encoded = Some enc
       /\ Forall (fun cs => numeric_dtype (series_dtype (snd cs)) = true) enc.
Proof.
  split; [reflexivity|]. split; [reflexivity|]. split; [reflexivity|].
  destruct (encode_if_needed_fallback_numeric numeric_only
              (world_with (record_frame scenario_record)) 0 0 tt tt scenario_record
              conversion_error (record_frame scenario_record)
              eq_refl eq_refl eq_refl)
    as (encoded & w' & enc & Hrun & Hfr & _ & _ & _ & _ & Hnum).
  exists encoded, w', enc. auto.
Defined.

Lemma encode_if_needed_direct_unchanged_witness :
  models (world_with (record_frame scenario_record)) !! 0%nat = Some tt
  /\ frames (world_with (record_frame scenario_record)) !! 0%nat
     = Some (record_frame scenario_record)
  /\ pipeline tt (record_frame scenario_record)
     = (inr [5%Q], record_frame scenario_record, tt)
  /\ exists w' : @World unit,
       encode_if_needed pipeline 0 0 (world_with (record_frame scenario_record))
       = (Return 0%nat, w')
       /\ frames w' !! 0%nat = Some (record_frame scenario_record).
Proof.
  split; [reflexivity|]. split; [reflexivity|]. split; [reflexivity|].
  destruct (encode_if_needed_direct_unchanged pipeline
              (world_with (record_frame scenario_record)) 0 0 tt tt
              (record_frame scenario_record) [5%Q] (record_frame scenario_record)
              eq_refl eq_refl eq_refl)
    as (w' & Hrun & Hfr & _).
  exists w'. auto.
Defined.



Lemma two_rows_columns_distinct : NoDup (columns two_rows).
Proof. apply (bool_decide_unpack (NoDup (columns two_rows))). vm_compute. exact I. Defined.

Lemma fallback_codes_are_positions_in_column_witness :
  models (world_with two_rows) !! 0%nat = Some tt
  /\ frames (world_with two_rows) !! 0%nat = Some two_rows
  /\ NoDup (columns two_rows)
  /\ getitem two_rows "Fertilizer_Used" = Some (SBool [true; false])
  /\ getitem two_rows "Irrigation_Used" = Some (SBool [false; false])
  /\ numeric_only tt two_rows = (inl conversion_error, two_rows, tt)
  /\ exists (encoded : nat) (w' : @World unit) (enc : DataFrame),
       encode_if_needed numeric_only 0 0 (world_with two_rows) = (Return encoded, w')
       /\ frames w' !! encoded = Some enc
       /\ exists wd codes,
            getitem enc "Region" = Some (SInt wd codes)
            /\ List.length codes = 2%nat.
Proof.
  split; [reflexivity|]. split; [reflexivity|].
  split; [exact two_rows_columns_distinct|].
  split; [reflexivity|]. split; [reflexivity|]. split; [reflexivity|].
  destruct (fallback_codes_are_positions_in_column numeric_only
              (world_with two_rows) 0 0 tt tt two_rows conversion_error two_rows
              (SBool [true; false]) (SBool [false; false])
              eq_refl eq_refl two_rows_columns_distinct eq_refl eq_refl eq_refl)
    as (encoded & w' & enc & Hrun & Hfr & Hcols).
  exists encoded, w', enc. split; [exact Hrun|]. split; [exact Hfr|].
  destruct (Hcols "Region" ["West"; "East"] eq_refl)
    as (_ & _ & wd & codes & Hg & Hlen & _).
  exists wd, codes. auto.
Defined.

Lemma fallback_forgets_categories_witness :
  Region scenario_record <> Region other_record
  /\ Crop scenario_record <> Crop other_record
  /\ exists (enc1 enc2 : nat) (w1' w2' : @World unit) (enc : DataFrame),
       encode_if_needed numeric_only 0 0 (world_with (record_frame scenario_record))
       = (Return enc1, w1')
       /\ encode_if_needed numeric_only 0 0 (world_with (record_frame other_record))
          = (Return enc2, w2')
       /\ frames w1' !! enc1 = Some enc
       /\ frames w2' !! enc2 = Some enc.
Proof.
  split; [discriminate|]. split; [discriminate|].
  destruct (fallback_forgets_categories numeric_only
              (world_with (record_frame scenario_record))
              (world_with (record_frame other_record))
              0 0 0 0 tt tt tt tt scenario_record other_record
              conversion_error conversion_error
              (record_frame scenario_record) (record_frame other_record)
              eq_refl eq_refl eq_refl eq_refl eq_refl
              eq_refl eq_refl eq_refl eq_refl eq_refl eq_refl)
    as (enc1 & enc2 & w1' & w2' & enc & H1 & H2 & H3 & H4 & _).
  exists enc1, enc2, w1', w2', enc. auto.
Defined.

Lemma main_submitted_both_fail_witness :
  models (world_with (record_frame scenario_record)) !! 0%nat = Some tt
  /\ frames (world_with (record_frame scenario_record)) !! 0%nat
     = Some (record_frame scenario_record)
  /\ broken tt (record_frame scenario_record)
     = (inl conversion_error, record_frame scenario_record, tt)
  /\ broken tt (encoded_record scenario_record)
     = (inl conversion_error, encoded_record scenario_record, tt)
  /\ exists w' : @World unit,
       main_submitted broken 0 0 (world_with (record_frame scenario_record))
       = (Return tt, w')
       /\ screen w' = [OException conversion_error; OError prediction_hint].
Proof.
  split; [reflexivity|]. split; [reflexivity|].
  split; [reflexivity|]. split; [reflexivity|].
  destruct (main_submitted_both_fail broken
              (world_with (record_frame scenario_record)) 0 0 tt tt tt scenario_record
              conversion_error conversion_error
              (record_frame scenario_record) (encoded_record scenario_record)
              eq_refl eq_refl eq_refl eq_refl)
    as (w' & Hrun & Hscreen & _).
  exists w'. auto.
Defined.

(** C4, as the sentence reads on the enumerations of the form, fails: for
    the scenario the fallback gives Region the code 0, while "North" is at
    position 1 of the sorted regions East, North, South, West. *)
Lemma codes_by_enumeration_fails :
  ~ codes_by_enumeration numeric_only
      (world_with (record_frame scenario_record)) 0 0 scenario_record.
Proof.
  intros (encoded & w' & enc & Hrun & Hfr & [wd Hregion] & _).
  vm_compute in Hrun. injection Hrun as <- <-.
  vm_compute in Hfr. injection Hfr as <-.
  vm_compute in Hregion. discriminate Hregion.
Qed.

(* ===================================================================== *)
(** ** What the computations keep *)
(* ===================================================================== *)

Lemma extended_by_refl {E} (P : E -> Prop) (l : list E) : extended_by P l l.
Proof. exists []. split; [now rewrite app_nil_r|constructor]. Qed.

Lemma extended_by_trans {E} (P : E -> Prop) (l1 l2 l3 : list E) :
  extended_by P l1 l2 -> extended_by P l2 l3 -> extended_by P l1 l3.
Proof.
  intros (t1 & -> & H1) (t2 & -> & H2). exists (t1 ++ t2).
  split; [now rewrite app_assoc|]. apply Forall_app; auto.
Qed.

Lemma extended_by_one {E} (P : E -> Prop) (l : list E) (e : E) :
  P e -> extended_by P l (l ++ [e]).
Proof. intros H. exists [e]. split; [reflexivity|]. repeat constructor. exact H. Qed.

Section Keeps.

Context {Model : Type}.
Variable predict : Model -> DataFrame -> (exn + list Q) * DataFrame * Model.

(** The relation: a preorder [ord] on one component [proj] of the world. *)
Context {X : Type}.
Variable proj : @World Model -> X.
Variable ord : X -> X -> Prop.
Hypothesis ord_refl : forall x, ord x x.
Hypothesis ord_trans : forall x y z, ord x y -> ord y z -> ord x z.

Local Abbreviation R := (on_field proj ord).

Implicit Types (w : @World Model).

Lemma keeps_same {A} (c : @M Model A) :
  (forall w, proj (snd (c w)) = proj w) -> keeps R c.
Proof. intros H w. unfold R, on_field. rewrite H. apply ord_refl. Qed.

Lemma keeps_ret {A} (a : A) : keeps R (@ret Model A a).
Proof. now apply keeps_same. Qed.

Lemma keeps_raise {A} (e : exn) : keeps R (@raise Model A e).
Proof. now apply keeps_same. Qed.

Lemma keeps_lift {A} (r : exn + A) : keeps R (@lift Model A r).
Proof. destruct r; [apply keeps_raise|apply keeps_ret]. Qed.

Lemma keeps_bind {A B} (c : @M Model A) (k : A -> M B) :
  keeps R c -> (forall a, keeps R (k a)) -> keeps R (bind c k).
Proof.
  intros Hc Hk w. specialize (Hc w). unfold bind.
  destruct (c w) as [[a|e|] w1]; cbn [snd] in *; try exact Hc.
  eapply ord_trans; [exact Hc|apply Hk].
Qed.

Lemma keeps_try_except {A} (c : @M Model A) (h : exn -> M A) :
  keeps R c -> (forall e, keeps R (h e)) -> keeps R (try_except c h).
Proof.
  intros Hc Hh w. specialize (Hc w). unfold try_except.
  destruct (c w) as [[a|e|] w1]; cbn [snd] in *; try exact Hc.
  eapply ord_trans; [exact Hc|apply Hh].
Qed.

Lemma keeps_for_each {A} (xs : list A) (body : A -> @M Model unit) :
  (forall x, keeps R (body x)) -> keeps R (for_each xs body).
Proof.
  intros Hb. induction xs as [|x xs IH]; cbn [for_each].
  - apply keeps_ret.
  - apply keeps_bind; auto.
Qed.

(** Steps that only read. *)
Lemma keeps_read_frame (l : nat) : keeps R (@read_frame Model l).
Proof. now apply keeps_same. Qed.

Lemma keeps_open_rb (path : string) : keeps R (@open_rb Model path).
Proof.
  apply keeps_same. intros w. unfold open_rb.
  now destruct (file_contents (files w) path).
Qed.

Lemma keeps_os_path_exists (path : string) : keeps R (@os_path_exists Model path).
Proof. now apply keeps_same. Qed.

Lemma keeps_st_file_uploader : keeps R (@st_file_uploader Model).
Proof. now apply keeps_same. Qed.

Lemma keeps_st_form_submit_button (label : string) :
  keeps R (@st_form_submit_button Model label).
Proof. now apply keeps_same. Qed.

Lemma keeps_st_selectbox (label : string) (options : list string) (index : nat) :
  keeps R (@st_selectbox Model label options index).
Proof.
  apply keeps_same. intros w. unfold st_selectbox.
  now destruct (nth_error options _).
Qed.

Lemma keeps_st_number_input_float (label : string) (lo hi value step : Q) :
  keeps R (@st_number_input_float Model label lo hi value step).
Proof.
  apply keeps_same. intros w. unfold st_number_input_float.
  destruct (_ && _); [|reflexivity]. now destruct (ui_float (ui w) label).
Qed.

Lemma keeps_st_number_input_int (label : string) (lo hi value step : Z) :
  keeps R (@st_number_input_int Model label lo hi value step).
Proof.
  apply keeps_same. intros w. unfold st_number_input_int.
  destruct (_ && _); [|reflexivity]. now destruct (ui_int (ui w) label).
Qed.

Lemma keeps_first_as_float (pred : list Q) : keeps R (@first_as_float Model pred).
Proof. destruct pred; [apply keeps_raise|apply keeps_ret]. Qed.

Lemma keeps_series_astype_int (s : Series) : keeps R (@series_astype_int Model s).
Proof.
  unfold series_astype_int. destruct (astype_int s); [apply keeps_ret|apply keeps_raise].
Qed.

(** Steps on table objects, for a component other than the tables. *)
Section Tables.

Hypothesis blind_frames : forall w f, proj (with_frames f w) = proj w.

Lemma keeps_new_frame (d : DataFrame) : keeps R (@new_frame Model d).
Proof. apply keeps_same. intros w. apply blind_frames. Qed.

Lemma keeps_df_copy (l : nat) : keeps R (@df_copy Model l).
Proof.
  unfold df_copy. apply keeps_bind; [apply keeps_read_frame|].
  intros d. apply keeps_new_frame.
Qed.

Lemma keeps_df_columns (l : nat) : keeps R (@df_columns Model l).
Proof.
  unfold df_columns. apply keeps_bind; [apply keeps_read_frame|].
  intros d. apply keeps_ret.
Qed.

Lemma keeps_df_getitem (l : nat) (col : string) : keeps R (@df_getitem Model l col).
Proof.
  unfold df_getitem. apply keeps_bind; [apply keeps_read_frame|].
  intros d. destruct (getitem d col); [apply keeps_ret|apply keeps_raise].
Qed.

Lemma keeps_df_setitem (l : nat) (col : string) (s : Series) :
  keeps R (@df_setitem Model l col s).
Proof. apply keeps_same. intros w. apply blind_frames. Qed.

Lemma keeps_fallback_encoding (df : nat) : keeps R (@fallback_encoding Model df).
Proof.
  unfold fallback_encoding.
  apply keeps_bind; [apply keeps_df_copy|]. intros encoded.
  apply keeps_bind; [apply keeps_df_columns|]. intros cols.
  apply keeps_bind.
  { apply keeps_for_each. intros col.
    apply keeps_bind; [apply keeps_df_getitem|].
    intros [xs| | |]; try apply keeps_ret. apply keeps_df_setitem. }
  intros _.
  apply keeps_bind; [apply keeps_df_getitem|]. intros f.
  apply keeps_bind; [apply keeps_series_astype_int|]. intros f'.
  apply keeps_bind; [apply keeps_df_setitem|]. intros _.
  apply keeps_bind; [apply keeps_df_getitem|]. intros i.
  apply keeps_bind; [apply keeps_series_astype_int|]. intros i'.
  apply keeps_bind; [apply keeps_df_setitem|]. intros _.
  apply keeps_ret.
Qed.

Lemma keeps_build_input_form : keeps R (@build_input_form Model).
Proof.
  unfold build_input_form.
  repeat (apply keeps_bind;
          [first [apply keeps_st_selectbox | apply keeps_st_number_input_float
                 | apply keeps_st_number_input_int | apply keeps_st_form_submit_button
                 | apply keeps_new_frame]
          |intros ?]).
  apply keeps_ret.
Qed.

(** With a [predict] step that keeps the relation, [encode_if_needed]
    keeps it. *)
Lemma keeps_encode_if_needed (model df : nat) :
  (forall l, keeps R (model_predict predict model l)) ->
  keeps R (encode_if_needed predict model df).
Proof.
  intros Hp. unfold encode_if_needed. apply keeps_try_except.
  - apply keeps_bind; [apply keeps_df_copy|]. intros c.
    apply keeps_bind; [apply Hp|]. intros _. apply keeps_ret.
  - intros _. apply keeps_fallback_encoding.
Qed.

(** And so does a submission, when rendering keeps it too. *)
Lemma keeps_main_submitted (model input_df : nat) :
  (forall l, keeps R (model_predict predict model l)) ->
  (forall o, keeps R (@render Model o)) ->
  keeps R (main_submitted predict model input_df).
Proof.
  intros Hp Hr. unfold main_submitted. apply keeps_try_except.
  - apply keeps_bind; [now apply keeps_encode_if_needed|]. intros dfm.
    apply keeps_bind; [apply Hp|]. intros pred.
    apply keeps_bind; [apply keeps_first_as_float|]. intros y.
    apply keeps_bind; [apply Hr|]. intros _.
    unfold st_expander_dataframe.
    apply keeps_bind.
    { apply keeps_bind; [apply keeps_read_frame|]. intros d. apply Hr. }
    intros _. apply keeps_bind; [apply keeps_read_frame|]. intros d. apply Hr.
  - intros e. apply keeps_bind; [apply Hr|]. intros _. apply Hr.
Qed.

End Tables.

(** The [predict] step, for a component it does not write to. *)
Lemma keeps_model_predict_blind (model l : nat) :
  (forall w f, proj (with_frames f w) = proj w) ->
  (forall w m, proj (with_models m w) = proj w) ->
  (forall w e, proj (with_events e w) = proj w) ->
  keeps R (model_predict predict model l).
Proof.
  intros Hf Hm He. apply keeps_same. intros w. unfold model_predict.
  destruct (models w !! model) as [m|]; [|reflexivity].
  destruct (predict m (frame_at w l)) as [[[e|p] d'] m']; cbn [snd];
    now rewrite He, Hm, Hf.
Qed.

Lemma keeps_render_blind (o : Output) :
  (forall w s, proj (with_screen s w) = proj w) -> keeps R (@render Model o).
Proof. intros Hs. apply keeps_same. intros w. apply Hs. Qed.

Lemma keeps_log_event_blind (e : Event) :
  (forall w ev, proj (with_events ev w) = proj w) -> keeps R (@log_event Model e).
Proof. intros He. apply keeps_same. intros w. apply He. Qed.

Lemma keeps_new_model_blind (m : Model) :
  (forall w ms, proj (with_models ms w) = proj w) -> keeps R (new_model m).
Proof. intros Hm. apply keeps_same. intros w. apply Hm. Qed.

(** Loading, given that recording an attempt keeps the relation. *)
Section Loading.

Variable pickle_load : bytes -> exn + Model.
Variable joblib_load : bytes -> exn + Model.
Hypothesis blind_models : forall w ms, proj (with_models ms w) = proj w.
Hypothesis blind_cache : forall w c, proj (with_cache c w) = proj w.
Hypothesis keeps_log : forall path,
  keeps R (@log_event Model (PickleLoad path))
  /\ keeps R (@log_event Model (JoblibLoad path)).

Lemma keeps_load_model (path : string) :
  keeps R (load_model pickle_load joblib_load path).
Proof.
  unfold load_model. apply keeps_try_except.
  - apply keeps_bind; [apply keeps_log|]. intros _.
    apply keeps_bind; [apply keeps_open_rb|]. intros f.
    apply keeps_bind; [apply keeps_lift|]. intros m.
    now apply keeps_new_model_blind.
  - intros e1. apply keeps_try_except.
    + apply keeps_bind; [apply keeps_log|]. intros _.
      apply keeps_bind; [apply keeps_open_rb|]. intros f.
      apply keeps_bind; [apply keeps_lift|]. intros m.
      now apply keeps_new_model_blind.
    + intros e2. apply keeps_raise.
Qed.

Lemma keeps_load_model_cached (path : string) :
  keeps R (load_model_cached pickle_load joblib_load path).
Proof.
  intros w. unfold load_model_cached, cache_resource.
  destruct (cache w !! path) as [r|]; [apply ord_refl|].
  pose proof (keeps_load_model path w) as H.
  destruct (load_model pickle_load joblib_load path w) as [[r|e|] w1];
    cbn [snd] in *; try exact H.
  unfold on_field. now rewrite blind_cache.
Qed.

End Loading.

End Keeps.

(** *** Computations that never stop the script *)

Section NeverStops.

Context {Model : Type}.
Variable predict : Model -> DataFrame -> (exn + list Q) * DataFrame * Model.
Variable pickle_load : bytes -> exn + Model.
Variable joblib_load : bytes -> exn + Model.

Lemma never_stops_ret {A} (a : A) : never_stops (@ret Model A a).
Proof. intros w. discriminate. Qed.

Lemma never_stops_raise {A} (e : exn) : never_stops (@raise Model A e).
Proof. intros w. discriminate. Qed.

Lemma never_stops_bind {A B} (c : @M Model A) (k : A -> M B) :
  never_stops c -> (forall a, never_stops (k a)) -> never_stops (bind c k).
Proof.
  intros Hc Hk w. specialize (Hc w). unfold bind.
  destruct (c w) as [[a|e|] w1]; cbn [fst] in *; [apply Hk|discriminate|congruence].
Qed.

Lemma never_stops_try_except {A} (c : @M Model A) (h : exn -> M A) :
  never_stops c -> (forall e, never_stops (h e)) -> never_stops (try_except c h).
Proof.
  intros Hc Hh w. specialize (Hc w). unfold try_except.
  destruct (c w) as [[a|e|] w1]; cbn [fst] in *; [discriminate|apply Hh|congruence].
Qed.

Lemma never_stops_for_each {A} (xs : list A) (body : A -> @M Model unit) :
  (forall x, never_stops (body x)) -> never_stops (for_each xs body).
Proof.
  intros Hb. induction xs as [|x xs IH]; cbn [for_each].
  - apply never_stops_ret.
  - apply never_stops_bind; auto.
Qed.

Lemma never_stops_read_frame (l : nat) : never_stops (@read_frame Model l).
Proof. intros w. discriminate. Qed.

Lemma never_stops_new_frame (d : DataFrame) : never_stops (@new_frame Model d).
Proof. intros w. discriminate. Qed.

Lemma never_stops_df_copy (l : nat) : never_stops (@df_copy Model l).
Proof.
  unfold df_copy. apply never_stops_bind; [apply never_stops_read_frame|].
  intros d. apply never_stops_new_frame.
Qed.

Lemma never_stops_df_getitem (l : nat) (col : string) :
  never_stops (@df_getitem Model l col).
Proof.
  unfold df_getitem. apply never_stops_bind; [apply never_stops_read_frame|].
  intros d. destruct (getitem d col); [apply never_stops_ret|apply never_stops_raise].
Qed.

Lemma never_stops_df_setitem (l : nat) (col : string) (s : Series) :
  never_stops (@df_setitem Model l col s).
Proof. intros w. discriminate. Qed.

Lemma never_stops_series_astype_int (s : Series) :
  never_stops (@series_astype_int Model s).
Proof.
  unfold series_astype_int.
  destruct (astype_int s); [apply never_stops_ret|apply never_stops_raise].
Qed.

Lemma never_stops_model_predict (model l : nat) :
  never_stops (model_predict predict model l).
Proof.
  intros w. unfold model_predict.
  destruct (models w !! model) as [m|]; [|discriminate].
  destruct (predict m (frame_at w l)) as [[[e|p] d'] m']; discriminate.
Qed.

Lemma never_stops_render (o : Output) : never_stops (@render Model o).
Proof. intros w. discriminate. Qed.

Lemma never_stops_fallback_encoding (df : nat) :
  never_stops (@fallback_encoding Model df).
Proof.
  unfold fallback_encoding.
  apply never_stops_bind; [apply never_stops_df_copy|]. intros encoded.
  apply never_stops_bind.
  { unfold df_columns. apply never_stops_bind; [apply never_stops_read_frame|].
    intros d. apply never_stops_ret. }
  intros cols.
  apply never_stops_bind.
  { apply never_stops_for_each. intros col.
    apply never_stops_bind; [apply never_stops_df_getitem|].
    intros [xs| | |]; [apply never_stops_df_setitem|apply never_stops_ret..]. }
  intros _.
  apply never_stops_bind; [apply never_stops_df_getitem|]. intros f.
  apply never_stops_bind; [apply never_stops_series_astype_int|]. intros f'.
  apply never_stops_bind; [apply never_stops_df_setitem|]. intros _.
  apply never_stops_bind; [apply never_stops_df_getitem|]. intros i.
  apply never_stops_bind; [apply never_stops_series_astype_int|]. intros i'.
  apply never_stops_bind; [apply never_stops_df_setitem|]. intros _.
  apply never_stops_ret.
Qed.

Lemma never_stops_encode_if_needed (model df : nat) :
  never_stops (encode_if_needed predict model df).
Proof.
  unfold encode_if_needed. apply never_stops_try_except.
  - apply never_stops_bind; [apply never_stops_df_copy|]. intros c.
    apply never_stops_bind; [apply never_stops_model_predict|]. intros _.
    apply never_stops_ret.
  - intros _. apply never_stops_fallback_encoding.
Qed.

Lemma never_stops_load_model_cached (path : string) :
  never_stops (load_model_cached pickle_load joblib_load path).
Proof.
  assert (Hattempt : forall (loader : bytes -> exn + Model) (ev : Event),
             never_stops
               (bind (log_event ev)
                  (fun _ => bind (open_rb path)
                     (fun f => bind (lift (loader f)) (fun m => new_model m))))).
  { intros loader ev.
    apply never_stops_bind; [intros w; discriminate|]. intros _.
    apply never_stops_bind.
    { intros w. unfold open_rb. destruct (file_contents (files w) path); discriminate. }
    intros f. apply never_stops_bind.
    { destruct (loader f); [apply never_stops_raise|apply never_stops_ret]. }
    intros m w. discriminate. }
  assert (Hload : never_stops (load_model pickle_load joblib_load path)).
  { unfold load_model. apply never_stops_try_except; [apply Hattempt|].
    intros e1. apply never_stops_try_except; [apply Hattempt|].
    intros e2. apply never_stops_raise. }
  intros w. unfold load_model_cached, cache_resource.
  destruct (cache w !! path) as [r|]; [discriminate|].
  specialize (Hload w).
  destruct (load_model pickle_load joblib_load path w) as [[r|e|] w1];
    cbn [fst] in *; congruence.
Qed.

Lemma never_stops_build_input_form : never_stops (@build_input_form Model).
Proof.
  assert (Hsel : forall label options index,
             never_stops (@st_selectbox Model label options index)).
  { intros label options index w. unfold st_selectbox.
    destruct (nth_error options _); discriminate. }
  assert (Hfl : forall label lo hi value step,
             never_stops (@st_number_input_float Model label lo hi value step)).
  { intros label lo hi value step w. unfold st_number_input_float.
    destruct (_ && _); [|discriminate]. destruct (ui_float (ui w) label); discriminate. }
  assert (Hint : forall label lo hi value step,
             never_stops (@st_number_input_int Model label lo hi value step)).
  { intros label lo hi value step w. unfold st_number_input_int.
    destruct (_ && _); [|discriminate]. destruct (ui_int (ui w) label); discriminate. }
  unfold build_input_form.
  repeat (apply never_stops_bind;
          [first [apply Hsel | apply Hfl | apply Hint | apply never_stops_new_frame
                 | (intros w; discriminate)]
          |intros ?]).
  apply never_stops_ret.
Qed.

End NeverStops.

(* ===================================================================== *)
(** ** Further properties of a submission *)
(* ===================================================================== *)

Section SubmissionInvariants.

Context {Model : Type}.
Variable predict : Model -> DataFrame -> (exn + list Q) * DataFrame * Model.

Implicit Types (w : @World Model) (d : DataFrame).

Lemma model_predict_same_screen (model l : nat) w :
  screen (snd (model_predict predict model l w)) = screen w.
Proof.
  symmetry.
  exact (keeps_model_predict_blind predict screen eq (fun _ => eq_refl) model l
           (fun _ _ => eq_refl) (fun _ _ => eq_refl) (fun _ _ => eq_refl) w).
Qed.

Lemma encode_if_needed_same_screen (model df : nat) w :
  screen (snd (encode_if_needed predict model df w)) = screen w.
Proof.
  symmetry.
  apply (keeps_encode_if_needed predict screen eq (fun _ => eq_refl)
           (fun x y z => @eq_trans _ x y z) (fun _ _ => eq_refl) model df).
  intros l w0. unfold on_field. symmetry. apply model_predict_same_screen.
Qed.

(** A call of [predict] adds at most its own record to the events. *)
Lemma model_predict_events (model l : nat) :
  keeps (on_field events (extended_by (predict_of model)))
    (model_predict predict model l).
Proof.
  intros w. unfold on_field, model_predict.
  destruct (models w !! model) as [m|]; [|apply extended_by_refl].
  destruct (predict m (frame_at w l)) as [[[e|p] d'] m']; cbn [snd events with_events];
    apply extended_by_one; now eexists.
Qed.

Lemma never_stops_main_submitted (model input_df : nat) :
  never_stops (main_submitted predict model input_df).
Proof.
  unfold main_submitted. apply never_stops_try_except.
  - apply never_stops_bind; [apply never_stops_encode_if_needed|]. intros dfm.
    apply never_stops_bind; [apply never_stops_model_predict|]. intros pred.
    apply never_stops_bind.
    { destruct pred; [apply never_stops_raise|apply never_stops_ret]. }
    intros y. apply never_stops_bind; [apply never_stops_render|]. intros _.
    unfold st_expander_dataframe.
    apply never_stops_bind.
    { apply never_stops_bind; [apply never_stops_read_frame|].
      intros d. apply never_stops_render. }
    intros _. apply never_stops_bind; [apply never_stops_read_frame|].
    intros d. apply never_stops_render.
  - intros e. apply never_stops_bind; [apply never_stops_render|].
    intros _. apply never_stops_render.
Qed.

(** X1.  A submission always ends normally, whatever the model, the table
    and the references are: no exception leaves the block, and the page
    gains either the yield with the two tables, or one exception with the
    hint, never both and never nothing. *)
Theorem main_submitted_ends_with_yield_or_error (model input_df : nat) w :
  exists w',
    main_submitted predict model input_df w = (Return tt, w')
    /\ ((exists (y : Q) (d1 d2 : DataFrame),
           screen w' = screen w ++
             [ OSuccess y;
               ODataframe "View input data" d1;
               ODataframe "View model input (after encoding, if applied)" d2 ])
        \/ (exists e : exn,
              screen w' = screen w ++ [OException e; OError prediction_hint])).
Proof.
  pose proof (encode_if_needed_same_screen model input_df w) as Hs1.
  pose proof (never_stops_encode_if_needed predict model input_df w) as Hn1.
  unfold main_submitted, try_except, bind at 1.
  destruct (encode_if_needed predict model input_df w) as [[dfm|e|] w1];
    cbn [fst snd] in *; [| |congruence].
  2:{ eexists. split; [reflexivity|]. right. exists e. cbn.
      now rewrite Hs1, <- app_assoc. }
  pose proof (model_predict_same_screen model dfm w1) as Hs2.
  pose proof (never_stops_model_predict predict model dfm w1) as Hn2.
  unfold bind at 1.
  destruct (model_predict predict model dfm w1) as [[pred|e|] w2];
    cbn [fst snd] in *; [| |congruence].
  2:{ eexists. split; [reflexivity|]. right. exists e. cbn.
      now rewrite Hs2, Hs1, <- app_assoc. }
  destruct pred as [|y rest].
  - eexists. split; [reflexivity|]. right. eexists. cbn.
    now rewrite Hs2, Hs1, <- app_assoc.
  - eexists. split; [reflexivity|]. left. do 3 eexists. cbn.
    now rewrite Hs2, Hs1, <- !app_assoc.
Qed.

End SubmissionInvariants.

(* ===================================================================== *)
(** ** Further properties of the fallback encoding *)
(* ===================================================================== *)






(** The fallback acts label by label. *)
Lemma fallback_frame_getitem (d enc : DataFrame) (col : string) :
  fallback_frame d = Some enc ->
  getitem enc col = option_map (fallback_column col) (getitem d col).
Proof.
  unfold fallback_frame. set (d0 := encode_cols (columns d) d).
  assert (H0 : forall c, getitem d0 c = option_map encode_column (getitem d c))
    by (intros c; apply getitem_encode_all).
  destruct (cast_flag d0 "Fertilizer_Used") as [d1|] eqn:H1; [|discriminate].
  intros H2. unfold cast_flag in H1, H2.
  rewrite H0 in H1.
  destruct (getitem d "Fertilizer_Used") as [f|] eqn:Hf; [|discriminate].
  cbn [option_map] in H1.
  destruct (astype_int (encode_column f)) as [f'|] eqn:Hf'; [|discriminate].
  injection H1 as <-.
  rewrite getitem_setitem_ne in H2 by discriminate. rewrite H0 in H2.
  destruct (getitem d "Irrigation_Used") as [i|] eqn:Hi; [|discriminate].
  cbn [option_map] in H2.
  destruct (astype_int (encode_column i)) as [i'|] eqn:Hi'; [|discriminate].
  injection H2 as <-. unfold fallback_column, is_flag.
  destruct (String.eqb_spec col "Irrigation_Used") as [->|HneI].
  - rewrite getitem_setitem_eq, Hi. cbn. now rewrite Hi'.
  - rewrite getitem_setitem_ne by congruence.
    destruct (String.eqb_spec col "Fertilizer_Used") as [->|HneF].
    + rewrite getitem_setitem_eq, Hf. cbn. now rewrite Hf'.
    + rewrite getitem_setitem_ne by congruence. rewrite H0.
      now destruct (getitem d col).
Qed.

(** In a strictly sorted list, positions and values are in the same order. *)
Lemma sorted_nth_lt (l : list string) (a b : nat) (x y : string) :
  StronglySorted str_lt l ->
  nth_error l a = Some x -> nth_error l b = Some y ->
  (a < b)%nat -> str_lt x y.
Proof.
  intros Hs. revert a b. induction Hs as [|z l Hs IH Hz]; intros a b Ha Hb Hlt.
  - destruct a; discriminate.
  - destruct b as [|b]; [lia|]. cbn in Hb. destruct a as [|a].
    + cbn in Ha. injection Ha as <-.
      rewrite List.Forall_forall in Hz. apply Hz. eapply nth_error_In; eauto.
    + cbn in Ha. apply (IH a b); auto. lia.
Qed.

Lemma sorted_nth_order (l : list string) (a b : nat) (x y : string) :
  StronglySorted str_lt l ->
  nth_error l a = Some x -> nth_error l b = Some y ->
  (x = y <-> a = b) /\ (str_lt x y <-> (a < b)%nat).
Proof.
  intros Hs Ha Hb.
  assert (Hasym : forall u v, str_lt u v -> str_lt v u -> False).
  { intros u v H1 H2. apply (str_lt_irrefl u). eapply str_lt_trans; eauto. }
  destruct (Nat.lt_trichotomy a b) as [Hlt|[->|Hgt]].
  - pose proof (sorted_nth_lt l a b x y Hs Ha Hb Hlt) as Hxy. split; split.
    + intros ->. now apply str_lt_irrefl in Hxy.
    + lia.
    + auto.
    + auto.
  - rewrite Ha in Hb. injection Hb as ->. split; split; auto.
    + intros H. now apply str_lt_irrefl in H.
    + lia.
  - pose proof (sorted_nth_lt l b a y x Hs Hb Ha Hgt) as Hyx. split; split.
    + intros ->. now apply str_lt_irrefl in Hyx.
    + lia.
    + intros Hxy. exfalso. eauto.
    + lia.
Qed.

Section FallbackEncoding.

Context {Model : Type}.
Variable predict : Model -> DataFrame -> (exn + list Q) * DataFrame * Model.

Implicit Types (w : @World Model) (d : DataFrame).

Lemma run_df_getitem_KeyError w (l : nat) d (c : string) :
  frames w !! l = Some d -> getitem d c = None ->
  df_getitem l c w = (Raise (Exception "KeyError" ("'" ++ c ++ "'")), w).
Proof.
  intros H Hs. unfold df_getitem.
  rewrite (bind_Return _ _ _ _ _ (run_read_frame _ _ _ H)). now rewrite Hs.
Qed.

(** The fallback, run on a table without the first flag column, or with
    the first and without the second. *)
Lemma run_fallback_missing_flag w (l : nat) d :
  frames w !! l = Some d ->
  (getitem d "Fertilizer_Used" = None ->
   fst (fallback_encoding l w) = Raise (Exception "KeyError" "'Fertilizer_Used'"))
  /\ (forall f, getitem d "Fertilizer_Used" = Some f ->
      getitem d "Irrigation_Used" = None ->
      fst (fallback_encoding l w) = Raise (Exception "KeyError" "'Irrigation_Used'")).
Proof.
  intros Hl. unfold fallback_encoding.
  rewrite (bind_Return _ _ _ _ _ (run_df_copy _ _ _ Hl)).
  set (n := List.length (frames w)).
  set (w2 := with_frames (frames w ++ [d]) w).
  assert (Hn : frames w2 !! n = Some d) by (cbn; now apply list_lookup_middle).
  rewrite (bind_Return _ _ _ _ _ (run_df_columns _ _ _ Hn)).
  rewrite (bind_Return _ _ _ _ _ (for_each_encode _ _ _ _ Hn (fun _ H => H))).
  assert (Hset : <[n := encode_cols (columns d) d]> (frames w2)
                 = frames w ++ [encode_cols (columns d) d])
    by apply insert_first_new.
  rewrite Hset. set (d0 := encode_cols (columns d) d).
  set (w3 := with_frames (frames w ++ [d0]) w2).
  assert (Hn0 : frames w3 !! n = Some d0) by (cbn; now apply list_lookup_middle).
  assert (H0 : forall c, getitem d0 c = option_map encode_column (getitem d c))
    by (intros c; apply getitem_encode_all).
  split.
  - intros Hf.
    erewrite bind_Raise; [reflexivity|].
    apply (run_df_getitem_KeyError _ _ d0); [exact Hn0|].
    now rewrite H0, Hf.
  - intros f Hf Hi.
    destruct (encode_column_not_object f) as [f' Hf'].
    assert (Hc : cast_flag d0 "Fertilizer_Used" = Some (setitem d0 "Fertilizer_Used" f')).
    { unfold cast_flag. rewrite H0, Hf. cbn [option_map]. now rewrite Hf'. }
    rewrite (run_cast_flag _ _ _ _ _ _ Hn0 Hc).
    erewrite bind_Raise; [reflexivity|].
    apply (run_df_getitem_KeyError _ _ (setitem d0 "Fertilizer_Used" f')).
    + cbn. subst n. rewrite insert_first_new. now apply list_lookup_middle.
    + rewrite getitem_setitem_ne by discriminate. now rewrite H0, Hi.
Qed.

(** X2.  [encode_if_needed] calls [predict] exactly once, on the contents
    of its input table, whether the call returns or raises and whether the
    fallback then succeeds or raises. *)
Theorem encode_if_needed_predicts_once w (model df : nat) (m : Model) d :
  models w !! model = Some m ->
  frames w !! df = Some d ->
  events (snd (encode_if_needed predict model df w))
  = events w ++ [PredictCall model d].
Proof.
  intros Hm Hdf.
  destruct (predict m d) as [[[e|p] dc] m'] eqn:Hp.
  - rewrite (encode_if_needed_raised predict w model df m m' d dc e Hm Hdf Hp).
    destruct (fallback_encoding_new_frame (after_direct model d dc m' w) df d)
      as (out & x & -> & _); [cbn; now apply lookup_app_l_Some|].
    reflexivity.
  - now rewrite (encode_if_needed_direct predict w model df m m' d dc p Hm Hdf Hp).
Qed.

(** X3.  When [predict] raises on a table with distinct labels that lacks
    a flag column, the fallback does not return: [encode_if_needed] raises
    the [KeyError] of the first missing flag, [Fertilizer_Used] before
    [Irrigation_Used]. *)
Theorem encode_if_needed_missing_flag_raises
    w (model df : nat) (m m' : Model) d (e : exn) (dc : DataFrame) :
  models w !! model = Some m ->
  frames w !! df = Some d ->
  NoDup (columns d) ->
  predict m d = (inl e, dc, m') ->
  (getitem d "Fertilizer_Used" = None ->
   fst (encode_if_needed predict model df w)
   = Raise (Exception "KeyError" "'Fertilizer_Used'"))
  /\ (forall f, getitem d "Fertilizer_Used" = Some f ->
      getitem d "Irrigation_Used" = None ->
      fst (encode_if_needed predict model df w)
      = Raise (Exception "KeyError" "'Irrigation_Used'")).
Proof.
  intros Hm Hdf _ Hp.
  rewrite (encode_if_needed_raised predict w model df m m' d dc e Hm Hdf Hp).
  apply (run_fallback_missing_flag _ df d). cbn. now apply lookup_app_l_Some.
Qed.

(** The table [encode_if_needed] returns after a fallback, with its
    contents. *)
Lemma encode_if_needed_encoded
    w (model df : nat) (m m' : Model) d (e : exn) (dc : DataFrame) (f i : Series) :
  models w !! model = Some m ->
  frames w !! df = Some d ->
  getitem d "Fertilizer_Used" = Some f ->
  getitem d "Irrigation_Used" = Some i ->
  predict m d = (inl e, dc, m') ->
  exists (encoded : nat) (w' : @World Model) (enc : DataFrame),
    encode_if_needed predict model df w = (Return encoded, w')
    /\ frames w' !! encoded = Some enc
    /\ fallback_frame d = Some enc.
Proof.
  intros Hm Hdf Hfert Hirr Hp.
  destruct (fallback_frame_defined d f i Hfert Hirr) as [enc Hf].
  eexists _, _, enc.
  split; [exact (encode_if_needed_fallback predict w model df m m' _ dc _ e Hm Hdf Hp Hf)|].
  split; [apply lookup_second_new|exact Hf].
Qed.


(** X5.  The fallback changes the [object] columns and the two flags only:
    every other column of the table is in the encoded table as it was,
    cells and dtype, a [bool] column included. *)
Theorem fallback_leaves_other_columns
    w (model df : nat) (m m' : Model) d (e : exn) (dc : DataFrame) (f i : Series) :
  models w !! model = Some m ->
  frames w !! df = Some d ->
  NoDup (columns d) ->
  getitem d "Fertilizer_Used" = Some f ->
  getitem d "Irrigation_Used" = Some i ->
  predict m d = (inl e, dc, m') ->
  exists (encoded : nat) (w' : @World Model) (enc : DataFrame),
    encode_if_needed predict model df w = (Return encoded, w')
    /\ frames w' !! encoded = Some enc
    /\ forall col s,
         getitem d col = Some s ->
         series_dtype s <> object ->
         col <> "Fertilizer_Used" ->
         col <> "Irrigation_Used" ->
         getitem enc col = Some s.
Proof.
  intros Hm Hdf _ Hfert Hirr Hp.
  destruct (encode_if_needed_encoded w model df m m' d e dc f i Hm Hdf Hfert Hirr Hp)
    as (encoded & w' & enc & Hrun & Hfr & Hf).
  exists encoded, w', enc. split; [exact Hrun|]. split; [exact Hfr|].
  intros col s Hs Hobj HF HI.
  rewrite (fallback_frame_getitem d enc col Hf), Hs. cbn [option_map]. f_equal.
  unfold fallback_column, is_flag.
  destruct (String.eqb_spec col "Fertilizer_Used"); [congruence|].
  destruct (String.eqb_spec col "Irrigation_Used"); [congruence|].
  cbn. destruct s; cbn in *; congruence.
Qed.

(** X6.  Within one column of one table the codes of the fallback are
    faithful: two rows have the same code exactly when they hold the same
    string, a row has the smaller code exactly when it holds the
    lexically smaller string, and every code is at least 0 and below the
    number of distinct strings of the column. *)
Theorem fallback_codes_follow_the_strings
    w (model df : nat) (m m' : Model) d (e : exn) (dc : DataFrame) (f i : Series) :
  models w !! model = Some m ->
  frames w !! df = Some d ->
  NoDup (columns d) ->
  getitem d "Fertilizer_Used" = Some f ->
  getitem d "Irrigation_Used" = Some i ->
  predict m d = (inl e, dc, m') ->
  exists (encoded : nat) (w' : @World Model) (enc : DataFrame),
    encode_if_needed predict model df w = (Return encoded, w')
    /\ frames w' !! encoded = Some enc
    /\ forall col xs,
         getitem d col = Some (SObject xs) ->
         exists wd codes,
           getitem enc col = Some (SInt wd codes)
           /\ forall (row1 row2 : nat) (x y : string) (c1 c2 : Z),
                nth_error xs row1 = Some x -> nth_error xs row2 = Some y ->
                nth_error codes row1 = Some c1 -> nth_error codes row2 = Some c2 ->
                (x = y <-> c1 = c2)
                /\ (str_lt x y <-> (c1 < c2)%Z)
                /\ (0 <= c1 < Z.of_nat (List.length (categories xs)))%Z.
Proof.
  intros Hm Hdf _ Hfert Hirr Hp.
  destruct (encode_if_needed_encoded w model df m m' d e dc f i Hm Hdf Hfert Hirr Hp)
    as (encoded & w' & enc & Hrun & Hfr & Hf).
  exists encoded, w', enc. split; [exact Hrun|]. split; [exact Hfr|].
  intros col xs Hg.
  destruct (fallback_frame_object _ _ col xs Hf Hg) as [wd Hwd].
  exists wd, (map (code_of (categories xs)) xs). split; [exact Hwd|].
  intros row1 row2 x y c1 c2 Hx Hy Hc1 Hc2.
  rewrite nth_error_map, Hx in Hc1. rewrite nth_error_map, Hy in Hc2.
  cbn in Hc1, Hc2. injection Hc1 as <-. injection Hc2 as <-.
  destruct (code_of_categories xs x) as (a & -> & Ha); [eapply nth_error_In; eauto|].
  destruct (code_of_categories xs y) as (b & -> & Hb); [eapply nth_error_In; eauto|].
  destruct (sorted_nth_order _ a b x y (categories_sorted xs) Ha Hb) as [Heq Hlt].
  split; [rewrite Heq; lia|]. split; [rewrite Hlt; lia|].
  assert (a < List.length (categories xs))%nat
    by (apply nth_error_Some; congruence).
  lia.
Qed.

End FallbackEncoding.

(* ===================================================================== *)
(** ** The two paths of a submission *)
(* ===================================================================== *)

Section SubmissionPaths.

Context {Model : Type}.
Variable predict : Model -> DataFrame -> (exn + list Q) * DataFrame * Model.

Implicit Types (w : @World Model) (d : DataFrame) (r : FieldRecord).

(** X7.  When the direct attempt returns, the model predicts twice on the
    same contents, once on the copy in [encode_if_needed] and once on the
    raw table in [main]; what the first call returned is dropped.  The
    yield shown is the one of the second call, and if the second call
    raises, its exception is shown with the hint and no fallback
    follows. *)
Theorem main_submitted_direct_predicts_twice
    w (model input_df : nat) (m m1 m2 : Model) d (p : list Q) (dc d2 : DataFrame)
    (res : exn + list Q) :
  models w !! model = Some m ->
  frames w !! input_df = Some d ->
  predict m d = (inr p, dc, m1) ->
  predict m1 d = (res, d2, m2) ->
  events (snd (main_submitted predict model input_df w))
  = events w ++ [PredictCall model d; PredictCall model d]
  /\ match res with
     | inr (y :: _) =>
         screen (snd (main_submitted predict model input_df w))
         = screen w ++
           [ OSuccess y;
             ODataframe "View input data" d2;
             ODataframe "View model input (after encoding, if applied)" d2 ]
     | inr [] =>
         exists e,
           screen (snd (main_submitted predict model input_df w))
           = screen w ++ [OException e; OError prediction_hint]
     | inl e =>
         screen (snd (main_submitted predict model input_df w))
         = screen w ++ [OException e; OError prediction_hint]
     end.
Proof.
  intros Hm Hdf Hp1 Hp2.
  pose proof (encode_if_needed_direct predict w model input_df m m1 d dc p
                Hm Hdf Hp1) as Henc.
  assert (Hlt : (input_df < List.length (frames w))%nat) by (eapply lookup_lt_Some; eauto).
  assert (Hlm : (model < List.length (models w))%nat) by (eapply lookup_lt_Some; eauto).
  assert (Hdf1 : frames (after_direct model d dc m1 w) !! input_df = Some d)
    by (cbn; now apply lookup_app_l_Some).
  assert (Hm1 : models (after_direct model d dc m1 w) !! model = Some m1)
    by (cbn; now apply list_lookup_insert_eq).
  pose proof (run_model_predict predict _ _ _ _ _ _ _ _ Hm1 Hdf1 Hp2) as Hsecond.
  set (w2 := with_events _ _) in Hsecond.
  assert (Hev2 : events w2 = events w ++ [PredictCall model d; PredictCall model d])
    by (subst w2; cbn; now rewrite <- app_assoc).
  assert (Hsc2 : screen w2 = screen w) by reflexivity.
  assert (Hfr2 : frames w2 !! input_df = Some d2).
  { subst w2. cbn. apply list_lookup_insert_eq. rewrite length_app. lia. }
  clearbody w2.
  remember (main_submitted predict model input_df w) as run eqn:Hrun.
  unfold main_submitted, try_except in Hrun.
  rewrite (bind_Return _ _ _ _ _ Henc) in Hrun.
  unfold bind at 1 in Hrun. rewrite Hsecond in Hrun.
  destruct res as [e|[|y rest]].
  - subst run. cbn. rewrite Hev2, Hsc2. split; [reflexivity|]. now rewrite <- app_assoc.
  - subst run. cbn. rewrite Hev2, Hsc2. split; [reflexivity|].
    eexists. now rewrite <- app_assoc.
  - unfold first_as_float, st_success, st_expander_dataframe in Hrun.
    rewrite (bind_Return (ret y) _ _ _ y eq_refl) in Hrun.
    rewrite (bind_Return (render _) _ _ _ tt eq_refl) in Hrun.
    erewrite (bind_Return (bind (read_frame input_df) _)) in Hrun.
    2:{ erewrite bind_Return; [reflexivity|]. apply run_read_frame. exact Hfr2. }
    erewrite bind_Return in Hrun; [|apply run_read_frame; exact Hfr2].
    subst run. cbn. rewrite Hev2, Hsc2. split; [reflexivity|]. now rewrite <- !app_assoc.
Qed.

(** X8.  A model that only accepts encoded tables is served through the
    fallback: when [predict] raises on the raw record of a submission and
    returns on its encoded record, the yield shown is the first value of
    that second call, the first table shown is the raw record and the
    second is the encoded table as the call left it; [predict] has been
    called on the raw record, then on the encoded record. *)
Theorem main_submitted_yield_from_encoded_record
    w (model input_df : nat) (m m1 m2 : Model) r (e1 : exn) (dc d2 : DataFrame)
    (y : Q) (rest : list Q) :
  models w !! model = Some m ->
  frames w !! input_df = Some (record_frame r) ->
  predict m (record_frame r) = (inl e1, dc, m1) ->
  predict m1 (encoded_record r) = (inr (y :: rest), d2, m2) ->
  fst (main_submitted predict model input_df w) = Return tt
  /\ screen (snd (main_submitted predict model input_df w))
     = screen w ++
       [ OSuccess y;
         ODataframe "View input data" (record_frame r);
         ODataframe "View model input (after encoding, if applied)" d2 ]
  /\ events (snd (main_submitted predict model input_df w))
     = events w ++ [PredictCall model (record_frame r);
                    PredictCall model (encoded_record r)].
Proof.
  intros Hm Hdf Hp1 Hp2.
  pose proof (encode_if_needed_fallback predict w model input_df m m1 _ dc _ e1
                Hm Hdf Hp1 (fallback_frame_record r)) as Henc.
  pose proof (run_retry predict w model m m1 m2 (record_frame r) _ dc d2 _ Hm Hp2)
    as Hretry.
  remember (main_submitted predict model input_df w) as run eqn:Hrun.
  unfold main_submitted, try_except in Hrun.
  rewrite (bind_Return _ _ _ _ _ Henc) in Hrun.
  rewrite (bind_Return _ _ _ _ _ Hretry) in Hrun.
  unfold first_as_float, st_success, st_expander_dataframe in Hrun.
  rewrite (bind_Return (ret y) _ _ _ y eq_refl) in Hrun.
  rewrite (bind_Return (render _) _ _ _ tt eq_refl) in Hrun.
  erewrite (bind_Return (bind (read_frame input_df) _)) in Hrun.
  2:{ erewrite bind_Return; [reflexivity|]. apply run_read_frame.
      cbn. apply lookup_app_l_Some. exact Hdf. }
  erewrite bind_Return in Hrun; [|apply run_read_frame; apply lookup_second_new].
  subst run. cbn. split; [reflexivity|]. split; [now rewrite <- !app_assoc|reflexivity].
Qed.

End SubmissionPaths.

(* ===================================================================== *)
(** ** Loading through the cache *)
(* ===================================================================== *)

Section CachedLoading.

Context {Model : Type}.
Variable pickle_load : bytes -> exn + Model.
Variable joblib_load : bytes -> exn + Model.

Implicit Types (w : @World Model).

(** [load_model], run. *)
Lemma run_load_model (path : string) w :
  load_model pickle_load joblib_load path w
  = match attempt pickle_load (files w) path with
    | inr m =>
        (Return (List.length (models w)),
         with_models (models w ++ [m])
           (with_events (events w ++ [PickleLoad path]) w))
    | inl e1 =>
        match attempt joblib_load (files w) path with
        | inr m =>
            (Return (List.length (models w)),
             with_models (models w ++ [m])
               (with_events (events w ++ [PickleLoad path; JoblibLoad path]) w))
        | inl e2 =>
            (Raise (Exception "RuntimeError"
                      ("Unable to load model. Tried pickle and joblib. "
                       ++ "Pickle error: " ++ exn_str e1
                       ++ ". Joblib error: " ++ exn_str e2)),
             with_events (events w ++ [PickleLoad path; JoblibLoad path]) w)
        end
    end.
Proof.
  pose proof (run_attempt pickle_load (PickleLoad path) path w) as H1.
  destruct (attempt pickle_load (files w) path) as [e1|m1].
  2:{ unfold load_model. now apply try_Return. }
  pose proof (run_attempt joblib_load (JoblibLoad path) path
                (with_events (events w ++ [PickleLoad path]) w)) as H2.
  cbn [files with_events] in H2.
  unfold load_model. rewrite (try_Raise _ _ _ _ _ H1).
  destruct (attempt joblib_load (files w) path) as [e2|m2].
  - rewrite (try_Raise _ _ _ _ _ H2). unfold raise. f_equal.
    destruct w; cbn. now rewrite <- app_assoc.
  - rewrite (try_Return _ _ _ _ _ H2). f_equal.
    destruct w; cbn. now rewrite <- app_assoc.
Qed.

(** X9.  Once a path has been loaded, in either format, the cache answers
    for it: the first call stores the new model object under the path, and
    every later call with that path returns the same object without any
    attempt, even when the file under the path has been replaced since. *)
Theorem load_model_cached_loads_once (path : string) (m : Model) w :
  cache w !! path = None ->
  (attempt pickle_load (files w) path = inr m
   \/ (exists e, attempt pickle_load (files w) path = inl e)
      /\ attempt joblib_load (files w) path = inr m) ->
  exists w1,
    load_model_cached pickle_load joblib_load path w
    = (Return (List.length (models w)), w1)
    /\ models w1 !! List.length (models w) = Some m
    /\ cache w1 !! path = Some (List.length (models w))
    /\ forall fs',
         load_model_cached pickle_load joblib_load path (with_files fs' w1)
         = (Return (List.length (models w)), with_files fs' w1).
Proof.
  intros Hmiss Hload.
  assert (Hrun : exists w0,
             load_model pickle_load joblib_load path w
             = (Return (List.length (models w)), w0)
             /\ models w0 = models w ++ [m]).
  { rewrite run_load_model.
    destruct Hload as [-> | [[e ->] ->]]; eexists; split; reflexivity. }
  destruct Hrun as (w0 & Hrun & Hmodels).
  eexists. split.
  { unfold load_model_cached, cache_resource. rewrite Hmiss, Hrun. reflexivity. }
  split; [cbn; rewrite Hmodels; now apply list_lookup_middle|].
  split; [cbn; apply lookup_insert_eq|].
  intros fs'. unfold load_model_cached, cache_resource. cbn [cache with_files with_cache].
  now rewrite lookup_insert_eq.
Qed.

(** X10.  A load that fails in both formats leaves no trace in the cache
    and creates no model object, so the failure is not remembered: once
    the file under the path can be unpickled, the next call loads it. *)
Theorem load_model_cached_forgets_failures (path : string) (e1 e2 : exn) w :
  cache w !! path = None ->
  attempt pickle_load (files w) path = inl e1 ->
  attempt joblib_load (files w) path = inl e2 ->
  exists err w1,
    load_model_cached pickle_load joblib_load path w = (Raise err, w1)
    /\ cache w1 = cache w
    /\ models w1 = models w
    /\ forall fs' m,
         attempt pickle_load fs' path = inr m ->
         exists w2,
           load_model_cached pickle_load joblib_load path (with_files fs' w1)
           = (Return (List.length (models w)), w2)
           /\ models w2 !! List.length (models w) = Some m.
Proof.
  intros Hmiss H1 H2.
  eexists _, _. split.
  { unfold load_model_cached, cache_resource.
    rewrite Hmiss, run_load_model, H1, H2. reflexivity. }
  split; [reflexivity|]. split; [reflexivity|].
  intros fs' m Hm. eexists. split.
  { unfold load_model_cached, cache_resource. cbn [cache with_files with_events].
    rewrite Hmiss, run_load_model. cbn [files with_files with_events]. rewrite Hm.
    reflexivity. }
  cbn. now apply list_lookup_middle.
Qed.

End CachedLoading.

(* ===================================================================== *)
(** ** Further properties of the form *)
(* ===================================================================== *)

Section FormValues.

Context {Model : Type}.
Implicit Types (w : @World Model).

(** A yes/no select box answers "No" exactly when the user picked the
    second option. *)
Lemma run_yes_no (label : string) w :
  exists v,
    st_selectbox label ["Yes"; "No"] 0 w = (Return v, w)
    /\ (String.eqb v "Yes" = false <-> ui_selected (ui w) label = Some 1%nat).
Proof.
  unfold st_selectbox.
  destruct (ui_selected (ui w) label) as [[|[|n]]|]; cbn;
    eexists; (split; [reflexivity|]); cbn; split; congruence.
Qed.

(** X11.  In a run in which the button of the form is pressed, so that
    the picks of the form reach the script, each of the two flags of the
    table is [False] exactly when the user picked "No", the second option
    of its select box, and [True] otherwise. *)
Theorem build_input_form_flags w :
  ui_clicked (ui w) "Predict Yield" = true ->
  exists (df : nat) w' (table : DataFrame) (fert irr : bool),
    build_input_form w = (Return (true, df), w')
    /\ frames w' !! df = Some table
    /\ getitem table "Fertilizer_Used" = Some (SBool [fert])
    /\ getitem table "Irrigation_Used" = Some (SBool [irr])
    /\ (fert = false <-> ui_selected (ui w) "Fertilizer Used" = Some 1%nat)
    /\ (irr = false <-> ui_selected (ui w) "Irrigation Used" = Some 1%nat).
Proof.
  intros Hpressed.
  destruct (run_st_selectbox "Region" ["North"; "East"; "South"; "West"] 0 w)
    as (region & Hregion & _); [cbn; lia|].
  destruct (run_st_selectbox "Soil Type"
              ["Clay"; "Sandy"; "Loam"; "Silt"; "Peaty"; "Chalky"] 0 w)
    as (soil & Hsoil & _); [cbn; lia|].
  destruct (run_st_selectbox "Crop"
              ["Wheat"; "Rice"; "Maize"; "Barley"; "Soybean"; "Cotton"] 0 w)
    as (crop & Hcrop & _); [cbn; lia|].
  destruct (run_st_selectbox "Weather Condition" ["Sunny"; "Rainy"; "Cloudy"] 0 w)
    as (weather & Hweather & _); [cbn; lia|].
  destruct (run_st_number_input_float "Rainfall (mm)" 0 5000 800 1 w)
    as (rain & Hrain & _); [discriminate|discriminate|].
  destruct (run_st_number_input_float "Temperature (°C)" (-20) 60 25 (1 # 10) w)
    as (temp & Htemp & _); [discriminate|discriminate|].
  destruct (run_st_number_input_int "Days to Harvest" 30 400 120 1 w)
    as (days & Hdays & _); [lia|].
  destruct (run_yes_no "Fertilizer Used" w) as (fert & Hfert & Ifert).
  destruct (run_yes_no "Irrigation Used" w) as (irr & Hirr & Iirr).
  eexists _, _, _, (String.eqb fert "Yes"), (String.eqb irr "Yes").
  split.
  { unfold build_input_form.
    rewrite (bind_Return _ _ _ _ _ Hregion), (bind_Return _ _ _ _ _ Hsoil),
      (bind_Return _ _ _ _ _ Hcrop), (bind_Return _ _ _ _ _ Hweather),
      (bind_Return _ _ _ _ _ Hrain), (bind_Return _ _ _ _ _ Htemp),
      (bind_Return _ _ _ _ _ Hdays), (bind_Return _ _ _ _ _ Hfert),
      (bind_Return _ _ _ _ _ Hirr).
    unfold st_form_submit_button, bind at 1. rewrite Hpressed. reflexivity. }
  split; [cbn; now apply list_lookup_middle|].
  split; [reflexivity|]. split; [reflexivity|]. split; assumption.
Qed.

(** X12.  The form builds its table on every run, pressed or not: with the
    widgets untouched it returns [False] for the button and the table of
    the default submission, North, Clay, Wheat, Sunny, 800 mm, 25 degrees,
    120 days, both flags [True]. *)
Theorem build_input_form_defaults w :
  ui w = untouched_ui ->
  build_input_form w
  = (Return (false, List.length (frames w)),
     with_frames (frames w ++ [record_frame default_record]) w).
Proof.
  destruct w as [fs ms fl ca u sc ev]. cbn [ui]. intros ->. reflexivity.
Qed.

End FormValues.

(* ===================================================================== *)
(** ** Properties of [main] *)
(* ===================================================================== *)

Section Main.

Context {Model : Type}.
Variable predict : Model -> DataFrame -> (exn + list Q) * DataFrame * Model.
Variable pickle_load : bytes -> exn + Model.
Variable joblib_load : bytes -> exn + Model.
Variable script_dir : string.

Implicit Types (w : @World Model).

Local Abbreviation main' := (main predict pickle_load joblib_load script_dir).
Local Abbreviation from_path := (main_from_path predict pickle_load joblib_load).

(** [main] up to the test of the path. *)
Lemma main_head w :
  main' w = from_path (chosen_path script_dir w) (world_at_path_test script_dir w).
Proof.
  unfold main, main_from_path, chosen_path, world_at_path_test.
  destruct w as [fs ms fl ca u sc ev]. cbn [ui].
  unfold bind at 1. cbn. unfold bind at 1. cbn. unfold bind at 1. cbn.
  destruct (ui_uploaded u) as [buffer|]; cbn; rewrite <- app_assoc; reflexivity.
Qed.

Lemma from_path_found (path : string) w :
  is_Some (files w !! path) ->
  from_path path w
  = bind (load_model_cached pickle_load joblib_load path) (fun model =>
    bind build_input_form (fun form =>
    let '(submitted, input_df) := form in
    if submitted then main_submitted predict model input_df else ret tt)) w.
Proof.
  intros Hsome. unfold main_from_path.
  rewrite (bind_Return _ _ w w true).
  - cbn [negb]. now rewrite (bind_Return (ret tt) _ w w tt eq_refl).
  - unfold os_path_exists. now rewrite bool_decide_eq_true_2.
Qed.

Lemma from_path_missing (path : string) w :
  files w !! path = None ->
  from_path path w = (Stopped, with_screen (screen w ++ [OError no_model_message]) w).
Proof.
  intros Hnone. unfold main_from_path.
  rewrite (bind_Return _ _ w w false).
  - reflexivity.
  - unfold os_path_exists. rewrite bool_decide_eq_false_2; [reflexivity|].
    rewrite Hnone. intros [x Hx]. discriminate.
Qed.

(** The part of [main] after the model is loaded keeps a component of the
    world that tables, [predict] and rendering keep. *)
Lemma keeps_form_and_submission {X} (proj : @World Model -> X) (ord : X -> X -> Prop)
      (model : nat) :
  (forall x, ord x x) ->
  (forall x y z, ord x y -> ord y z -> ord x z) ->
  (forall w f, proj (with_frames f w) = proj w) ->
  (forall l, keeps (on_field proj ord) (model_predict predict model l)) ->
  (forall o, keeps (on_field proj ord) (@render Model o)) ->
  keeps (on_field proj ord)
    (bind build_input_form (fun form =>
       let '(submitted, input_df) := form in
       if submitted then main_submitted predict model input_df else ret tt)).
Proof.
  intros Hrefl Htrans Hf Hp Hr.
  apply keeps_bind; [exact Htrans|now apply keeps_build_input_form|].
  intros [[|] input_df].
  - now apply keeps_main_submitted.
  - now apply keeps_ret.
Qed.

(** X13.  Without an uploaded file and without the default model file
    [pipeline3_revised.pkl] next to the script, [main] renders the head of
    the page and the "No model found" error and stops: it loads nothing,
    builds no form and predicts nothing.  A file named [model.pkl], the
    name the error message gives, does not change this. *)
Theorem main_without_model_file_stops w :
  ui_uploaded (ui w) = None ->
  files w !! os_path_join script_dir "pipeline3_revised.pkl" = None ->
  main' w
  = (Stopped, with_screen (screen w ++ page_head ++ [OError no_model_message]) w).
Proof.
  intros Hup Hnone. rewrite main_head.
  unfold chosen_path, world_at_path_test. rewrite Hup.
  rewrite from_path_missing by exact Hnone.
  cbn. now rewrite <- app_assoc.
Qed.

(** The file system when [main] ends. *)
Lemma main_files w :
  files (snd (main' w))
  = match ui_uploaded (ui w) with
    | Some buffer =>
        <[os_path_join script_dir "_uploaded_model.tmp" := buffer]> (files w)
    | None => files w
    end.
Proof.
  rewrite main_head.
  assert (Hkeep : forall path, keeps (on_field files eq) (from_path path)).
  { intros path. unfold main_from_path.
    assert (Htrans : forall x y z : gmap string bytes, x = y -> y = z -> x = z)
      by (intros; congruence).
    assert (Hpred : forall model l,
               keeps (on_field files eq) (model_predict predict model l)).
    { intros model l.
      exact (keeps_model_predict_blind predict files eq (fun _ => eq_refl) model l
               (fun _ _ => eq_refl) (fun _ _ => eq_refl) (fun _ _ => eq_refl)). }
    assert (Hrender : forall o, keeps (on_field files eq) (@render Model o)).
    { intros o. exact (keeps_render_blind files eq (fun _ => eq_refl) o
                         (fun _ _ => eq_refl)). }
    apply keeps_bind; [exact Htrans|now apply keeps_os_path_exists|]. intros found.
    apply keeps_bind; [exact Htrans| |].
    { destruct (negb found); [|now apply keeps_ret].
      apply keeps_bind; [exact Htrans|apply Hrender|].
      intros _. now apply keeps_same. }
    intros _. apply keeps_bind; [exact Htrans| |].
    { apply keeps_load_model_cached; try (intros; reflexivity); [exact Htrans|].
      intros p. split; apply keeps_log_event_blind; intros; reflexivity. }
    intros model. apply keeps_form_and_submission; auto. }
  rewrite <- (Hkeep (chosen_path script_dir w) (world_at_path_test script_dir w)).
  unfold world_at_path_test. now destruct (ui_uploaded (ui w)).
Qed.

(** X14.  [main] writes at most one file: the uploaded bytes, under the
    temporary path next to the script, where they stay when [main] ends;
    without an upload the file system is left as it was.  With an upload
    the script never stops on "No model found". *)
Theorem main_file_system w :
  files (snd (main' w))
  = match ui_uploaded (ui w) with
    | Some buffer =>
        <[os_path_join script_dir "_uploaded_model.tmp" := buffer]> (files w)
    | None => files w
    end
  /\ (ui_uploaded (ui w) <> None -> fst (main' w) <> Stopped).
Proof.
  split; [apply main_files|].
  rewrite main_head.
  intros Hup. unfold chosen_path, world_at_path_test.
  destruct (ui_uploaded (ui w)) as [buffer|]; [clear Hup|congruence].
  rewrite from_path_found
    by (cbn [files with_files with_screen]; rewrite lookup_insert_eq; eauto).
  apply never_stops_bind; [apply never_stops_load_model_cached|]. intros model.
  apply never_stops_bind; [apply never_stops_build_input_form|].
  intros [[|] input_df]; [apply never_stops_main_submitted|apply never_stops_ret].
Qed.

(** X15.  The cache is keyed by the path and every upload is written to
    the same temporary path: when a model object is cached for that path,
    a newly uploaded file is written to disk but never deserialised, and
    every prediction of the run is made by the cached object. *)
Theorem main_upload_after_cached_model_is_not_loaded
    w (buffer : bytes) (model : nat) :
  ui_uploaded (ui w) = Some buffer ->
  cache w !! os_path_join script_dir "_uploaded_model.tmp" = Some model ->
  files (snd (main' w)) !! os_path_join script_dir "_uploaded_model.tmp" = Some buffer
  /\ extended_by (predict_of model) (events w) (events (snd (main' w))).
Proof.
  intros Hup Hhit. split.
  { rewrite main_files, Hup. apply lookup_insert_eq. }
  rewrite main_head. unfold chosen_path, world_at_path_test. rewrite Hup.
  rewrite from_path_found by (cbn [files with_files with_screen]; rewrite lookup_insert_eq; eauto).
  erewrite bind_Return; [|apply load_model_cached_hit; exact Hhit].
  refine (keeps_form_and_submission events (extended_by (predict_of model)) model
            _ _ _ _ _ _).
  - intros x. apply extended_by_refl.
  - intros x y z. apply extended_by_trans.
  - reflexivity.
  - apply model_predict_events.
  - intros o. apply keeps_render_blind; [intros x; apply extended_by_refl|reflexivity].
Qed.

(** X16.  When the model file is there but can be read in neither format,
    [main] ends with the aggregated [RuntimeError], uncaught: the page
    shows its head only, the form is not built, and nothing is cached. *)
Theorem main_load_failure_is_not_caught w (content : bytes) (e1 e2 : exn) :
  ui_uploaded (ui w) = None ->
  files w !! os_path_join script_dir "pipeline3_revised.pkl" = Some content ->
  cache w !! os_path_join script_dir "pipeline3_revised.pkl" = None ->
  pickle_load content = inl e1 ->
  joblib_load content = inl e2 ->
  exists err,
    main' w
    = (Raise err,
       with_events
         (events w ++ [PickleLoad (os_path_join script_dir "pipeline3_revised.pkl");
                       JoblibLoad (os_path_join script_dir "pipeline3_revised.pkl")])
         (with_screen (screen w ++ page_head) w))
    /\ exn_class err = "RuntimeError"
    /\ contains (exn_str e1) (exn_str err)
    /\ contains (exn_str e2) (exn_str err).
Proof.
  intros Hup Hfile Hmiss H1 H2.
  exists (Exception "RuntimeError"
            ("Unable to load model. Tried pickle and joblib. "
             ++ "Pickle error: " ++ exn_str e1 ++ ". Joblib error: " ++ exn_str e2)).
  split; [|split; [reflexivity|split]].
  - rewrite main_head. unfold chosen_path, world_at_path_test. rewrite Hup.
    rewrite from_path_found by (cbn [files with_screen]; rewrite Hfile; eauto).
    apply bind_Raise.
    unfold load_model_cached, cache_resource. cbn [cache with_screen].
    rewrite Hmiss, run_load_model. unfold attempt, file_contents.
    cbn [files with_screen]. rewrite Hfile, H1, H2. reflexivity.
  - cbn [exn_str].
    apply (contains_middle
             "Unable to load model. Tried pickle and joblib. Pickle error: ").
  - cbn [exn_str]. rewrite <- !append_assoc. apply contains_end.
Qed.

(** Loading keeps the widgets and the page, and records attempts only. *)
Lemma load_model_cached_quiet (path : string) w :
  ui (snd (load_model_cached pickle_load joblib_load path w)) = ui w
  /\ screen (snd (load_model_cached pickle_load joblib_load path w)) = screen w
  /\ extended_by is_load (events w)
       (events (snd (load_model_cached pickle_load joblib_load path w))).
Proof.
  split; [|split].
  - symmetry.
    apply (keeps_load_model_cached ui eq (fun _ => eq_refl)
             (fun x y z => @eq_trans _ x y z));
      try (intros; reflexivity).
    intros p. split; apply keeps_log_event_blind; intros; reflexivity.
  - symmetry.
    apply (keeps_load_model_cached screen eq (fun _ => eq_refl)
             (fun x y z => @eq_trans _ x y z));
      try (intros; reflexivity).
    intros p. split; apply keeps_log_event_blind; intros; reflexivity.
  - apply (keeps_load_model_cached events (extended_by is_load));
      try (intros; reflexivity).
    + intros x. apply extended_by_refl.
    + intros x y z. apply extended_by_trans.
    + intros p. split; intros w0; unfold on_field; cbn;
        apply extended_by_one; exists p; auto.
Qed.

(** X17.  A run in which the button is not pressed predicts nothing and
    shows no result: the only events are deserialisation attempts, and the
    page gains its head and at most the "No model found" error. *)
Theorem main_without_submission_predicts_nothing w :
  ui_clicked (ui w) "Predict Yield" = false ->
  extended_by is_load (events w) (events (snd (main' w)))
  /\ exists shown,
       screen (snd (main' w)) = screen w ++ page_head ++ shown
       /\ (shown = [] \/ shown = [OError no_model_message]).
Proof.
  intros Hclick. rewrite main_head.
  set (w0 := world_at_path_test script_dir w).
  set (path := chosen_path script_dir w).
  assert (Hui0 : ui w0 = ui w)
    by (subst w0; unfold world_at_path_test; now destruct (ui_uploaded (ui w))).
  assert (Hsc0 : screen w0 = screen w ++ page_head)
    by (subst w0; unfold world_at_path_test; now destruct (ui_uploaded (ui w))).
  assert (Hev0 : events w0 = events w)
    by (subst w0; unfold world_at_path_test; now destruct (ui_uploaded (ui w))).
  clearbody w0 path.
  destruct (files w0 !! path) as [content|] eqn:Hfile.
  2:{ rewrite from_path_missing by exact Hfile. cbn. rewrite Hev0, Hsc0.
      split; [apply extended_by_refl|].
      exists [OError no_model_message]. split; [now rewrite <- app_assoc|now right]. }
  remember (from_path path w0) as run eqn:Hrun.
  rewrite from_path_found in Hrun by (rewrite Hfile; eauto).
  destruct (load_model_cached_quiet path w0) as (Hui1 & Hsc1 & Hev1).
  unfold bind at 1 in Hrun.
  destruct (load_model_cached pickle_load joblib_load path w0) as [[model|e|] w1];
    cbn [snd] in *.
  - destruct (run_build_input_form w1) as (r & Hform & _).
    rewrite (bind_Return _ _ _ _ _ Hform) in Hrun.
    rewrite Hui1, Hui0, Hclick in Hrun. subst run. cbn. rewrite Hsc1, Hsc0, <- Hev0.
    split; [exact Hev1|]. exists []. split; [reflexivity|now left].
  - subst run. cbn. rewrite Hsc1, Hsc0, <- Hev0.
    split; [exact Hev1|]. exists []. split; [reflexivity|now left].
  - subst run. cbn. rewrite Hsc1, Hsc0, <- Hev0.
    split; [exact Hev1|]. exists []. split; [reflexivity|now left].
Qed.

(** X18.  A model that [main] loads from the default file is cached under
    the path of that file when [main] ends, whatever the form and the
    submission do afterwards; nothing else enters the cache. *)
Theorem main_caches_the_loaded_model w (content : bytes) (m : Model) :
  ui_uploaded (ui w) = None ->
  files w !! os_path_join script_dir "pipeline3_revised.pkl" = Some content ->
  cache w !! os_path_join script_dir "pipeline3_revised.pkl" = None ->
  pickle_load content = inr m ->
  cache (snd (main' w))
  = <[os_path_join script_dir "pipeline3_revised.pkl" := List.length (models w)]>
      (cache w).
Proof.
  intros Hup Hfile Hmiss Hload.
  rewrite main_head. unfold chosen_path, world_at_path_test. rewrite Hup.
  rewrite from_path_found by (cbn [files with_screen]; rewrite Hfile; eauto).
  erewrite bind_Return.
  2:{ unfold load_model_cached, cache_resource. cbn [cache with_screen].
      rewrite Hmiss, run_load_model. unfold attempt, file_contents.
      cbn [files with_screen]. rewrite Hfile, Hload. reflexivity. }
  match goal with
  | |- cache (snd (bind _ (fun form => let '(_, _) := form in
                                       if _ then main_submitted _ ?n _ else _) ?w1)) = _ =>
      pose proof (keeps_form_and_submission cache eq n (fun _ => eq_refl)
                    (fun x y z => @eq_trans _ x y z) (fun _ _ => eq_refl)
                    (fun l => keeps_model_predict_blind predict cache eq
                                (fun _ => eq_refl) n l
                                (fun _ _ => eq_refl) (fun _ _ => eq_refl)
                                (fun _ _ => eq_refl))
                    (fun o => keeps_render_blind cache eq (fun _ => eq_refl) o
                                (fun _ _ => eq_refl))
                    w1) as Hkeep
  end.
  unfold on_field in Hkeep. rewrite <- Hkeep. reflexivity.
Qed.

End Main.

(* ===================================================================== *)
(** ** The further properties at concrete inputs *)
(* ===================================================================== *)

(** The stale model at work: the second upload is on disk, the model that
    predicts is the one cached from the first. *)
Example main_reupload_run :
  events (snd (main pipeline readable readable "/app" reupload_world))
  = [ PredictCall 0 (record_frame default_record);
      PredictCall 0 (record_frame default_record) ].
Proof. vm_compute. reflexivity. Qed.

Lemma mixed_rows_columns_distinct : NoDup (columns mixed_rows).
Proof. apply (bool_decide_unpack (NoDup (columns mixed_rows))). vm_compute. exact I. Defined.

Lemma encode_if_needed_predicts_once_witness :
  models (world_with no_flags) !! 0%nat = Some tt
  /\ frames (world_with no_flags) !! 0%nat = Some no_flags
  /\ events (snd (encode_if_needed numeric_only 0 0 (world_with no_flags)))
     = [PredictCall 0 no_flags].
Proof.
  split; [reflexivity|]. split; [reflexivity|].
  exact (encode_if_needed_predicts_once numeric_only (world_with no_flags) 0 0 tt
           no_flags eq_refl eq_refl).
Defined.

Lemma no_flags_columns_distinct : NoDup (columns no_flags).
Proof. apply (bool_decide_unpack (NoDup (columns no_flags))). vm_compute. exact I. Defined.

Lemma encode_if_needed_missing_flag_raises_witness :
  models (world_with no_flags) !! 0%nat = Some tt
  /\ frames (world_with no_flags) !! 0%nat = Some no_flags
  /\ NoDup (columns no_flags)
  /\ numeric_only tt no_flags = (inl conversion_error, no_flags, tt)
  /\ getitem no_flags "Fertilizer_Used" = None
  /\ fst (encode_if_needed numeric_only 0 0 (world_with no_flags))
     = Raise (Exception "KeyError" "'Fertilizer_Used'").
Proof.
  split; [reflexivity|]. split; [reflexivity|].
  split; [exact no_flags_columns_distinct|]. split; [reflexivity|].
  split; [reflexivity|].
  exact (proj1 (encode_if_needed_missing_flag_raises numeric_only
                  (world_with no_flags) 0 0 tt tt no_flags conversion_error no_flags
                  eq_refl eq_refl no_flags_columns_distinct eq_refl) eq_refl).
Defined.


Lemma fallback_leaves_other_columns_witness :
  models (world_with mixed_rows) !! 0%nat = Some tt
  /\ frames (world_with mixed_rows) !! 0%nat = Some mixed_rows
  /\ NoDup (columns mixed_rows)
  /\ numeric_only tt mixed_rows = (inl conversion_error, mixed_rows, tt)
  /\ exists (encoded : nat) (w' : @World unit) (enc : DataFrame),
       encode_if_needed numeric_only 0 0 (world_with mixed_rows) = (Return encoded, w')
       /\ frames w' !! encoded = Some enc
       /\ getitem enc "Rainfall_mm" = Some (SFloat [100%Q; 250%Q; 75%Q]).
Proof.
  split; [reflexivity|]. split; [reflexivity|].
  split; [exact mixed_rows_columns_distinct|]. split; [reflexivity|].
  destruct (fallback_leaves_other_columns numeric_only (world_with mixed_rows) 0 0
              tt tt mixed_rows conversion_error mixed_rows
              (SBool [true; false; true]) (SBool [false; false; true])
              eq_refl eq_refl mixed_rows_columns_distinct eq_refl eq_refl eq_refl)
    as (encoded & w' & enc & Hrun & Hfr & Hrest).
  exists encoded, w', enc. split; [exact Hrun|]. split; [exact Hfr|].
  apply Hrest; [reflexivity|discriminate|discriminate|discriminate].
Defined.

Lemma fallback_codes_follow_the_strings_witness :
  models (world_with mixed_rows) !! 0%nat = Some tt
  /\ frames (world_with mixed_rows) !! 0%nat = Some mixed_rows
  /\ NoDup (columns mixed_rows)
  /\ numeric_only tt mixed_rows = (inl conversion_error, mixed_rows, tt)
  /\ exists (encoded : nat) (w' : @World unit) (enc : DataFrame) wd codes,
       encode_if_needed numeric_only 0 0 (world_with mixed_rows) = (Return encoded, w')
       /\ frames w' !! encoded = Some enc
       /\ getitem enc "Region" = Some (SInt wd codes).
Proof.
  split; [reflexivity|]. split; [reflexivity|].
  split; [exact mixed_rows_columns_distinct|]. split; [reflexivity|].
  destruct (fallback_codes_follow_the_strings numeric_only (world_with mixed_rows) 0 0
              tt tt mixed_rows conversion_error mixed_rows
              (SBool [true; false; true]) (SBool [false; false; true])
              eq_refl eq_refl mixed_rows_columns_distinct eq_refl eq_refl eq_refl)
    as (encoded & w' & enc & Hrun & Hfr & Hcodes).
  destruct (Hcodes "Region" ["West"; "East"; "West"] eq_refl) as (wd & codes & Hg & _).
  exists encoded, w', enc, wd, codes. auto.
Defined.

Lemma main_submitted_direct_predicts_twice_witness :
  models (world_with (record_frame scenario_record)) !! 0%nat = Some tt
  /\ frames (world_with (record_frame scenario_record)) !! 0%nat
     = Some (record_frame scenario_record)
  /\ pipeline tt (record_frame scenario_record)
     = (inr [5%Q], record_frame scenario_record, tt)
  /\ events (snd (main_submitted pipeline 0 0
                    (world_with (record_frame scenario_record))))
     = [ PredictCall 0 (record_frame scenario_record);
         PredictCall 0 (record_frame scenario_record) ].
Proof.
  split; [reflexivity|]. split; [reflexivity|]. split; [reflexivity|].
  exact (proj1 (main_submitted_direct_predicts_twice pipeline
                  (world_with (record_frame scenario_record)) 0 0 tt tt tt
                  (record_frame scenario_record) [5%Q]
                  (record_frame scenario_record) (record_frame scenario_record)
                  (inr [5%Q]) eq_refl eq_refl eq_refl eq_refl)).
Defined.

Lemma main_submitted_yield_from_encoded_record_witness :
  models (world_with (record_frame scenario_record)) !! 0%nat = Some tt
  /\ frames (world_with (record_frame scenario_record)) !! 0%nat
     = Some (record_frame scenario_record)
  /\ numeric_only tt (record_frame scenario_record)
     = (inl conversion_error, record_frame scenario_record, tt)
  /\ numeric_only tt (encoded_record scenario_record)
     = (inr [5%Q], encoded_record scenario_record, tt)
  /\ fst (main_submitted numeric_only 0 0 (world_with (record_frame scenario_record)))
     = Return tt.
Proof.
  split; [reflexivity|]. split; [reflexivity|].
  split; [reflexivity|]. split; [reflexivity|].
  exact (proj1 (main_submitted_yield_from_encoded_record numeric_only
                  (world_with (record_frame scenario_record)) 0 0 tt tt tt
                  scenario_record conversion_error
                  (record_frame scenario_record) (encoded_record scenario_record)
                  5%Q [] eq_refl eq_refl eq_refl eq_refl)).
Defined.

Lemma load_model_cached_loads_once_witness :
  cache idle_world !! "/app/pipeline3_revised.pkl" = None
  /\ attempt readable (files idle_world) "/app/pipeline3_revised.pkl" = inr tt
  /\ exists w1 : @World unit,
       load_model_cached readable readable "/app/pipeline3_revised.pkl" idle_world
       = (Return 0%nat, w1)
       /\ cache w1 !! "/app/pipeline3_revised.pkl" = Some 0%nat.
Proof.
  split; [reflexivity|]. split; [reflexivity|].
  destruct (load_model_cached_loads_once readable readable
              "/app/pipeline3_revised.pkl" tt idle_world eq_refl (or_introl eq_refl))
    as (w1 & Hrun & _ & Hcache & _).
  exists w1. auto.
Defined.

Lemma load_model_cached_forgets_failures_witness :
  cache idle_world !! "/app/pipeline3_revised.pkl" = None
  /\ attempt unreadable (files idle_world) "/app/pipeline3_revised.pkl"
     = inl (Exception "UnpicklingError" "invalid load key")
  /\ exists (err : exn) (w1 : @World unit),
       load_model_cached unreadable unreadable "/app/pipeline3_revised.pkl" idle_world
       = (Raise err, w1)
       /\ cache w1 = cache idle_world.
Proof.
  split; [reflexivity|]. split; [reflexivity|].
  destruct (load_model_cached_forgets_failures unreadable unreadable
              "/app/pipeline3_revised.pkl" _ _ idle_world eq_refl eq_refl eq_refl)
    as (err & w1 & Hrun & Hcache & _).
  exists err, w1. auto.
Defined.

Lemma build_input_form_defaults_witness :
  ui idle_world = untouched_ui
  /\ build_input_form idle_world
     = (Return (false, 0%nat),
        with_frames [record_frame default_record] idle_world).
Proof.
  split; [reflexivity|].
  exact (build_input_form_defaults idle_world eq_refl).
Defined.

Lemma build_input_form_flags_witness :
  ui_clicked (ui reupload_world) "Predict Yield" = true
  /\ exists (df : nat) (w' : @World unit) (table : DataFrame),
       build_input_form reupload_world = (Return (true, df), w')
       /\ frames w' !! df = Some table
       /\ getitem table "Fertilizer_Used" = Some (SBool [true]).
Proof.
  split; [reflexivity|].
  destruct (build_input_form_flags reupload_world eq_refl)
    as (df & w' & table & fert & irr & Hrun & Hfr & Hfert & _ & Hiff & _).
  exists df, w', table. split; [exact Hrun|]. split; [exact Hfr|].
  rewrite Hfert. destruct fert; [reflexivity|].
  destruct Hiff as [Hiff _]. discriminate (Hiff eq_refl).
Defined.

Lemma main_without_model_file_stops_witness :
  ui_uploaded (ui misnamed_world) = None
  /\ files misnamed_world !! "/app/model.pkl" = Some "model"
  /\ files misnamed_world !! os_path_join "/app" "pipeline3_revised.pkl" = None
  /\ fst (main numeric_only readable readable "/app" misnamed_world) = Stopped.
Proof.
  split; [reflexivity|]. split; [reflexivity|]. split; [reflexivity|].
  rewrite (main_without_model_file_stops numeric_only readable readable "/app"
             misnamed_world eq_refl eq_refl).
  reflexivity.
Defined.

Lemma main_upload_after_cached_model_is_not_loaded_witness :
  ui_uploaded (ui reupload_world) = Some "second upload"
  /\ cache reupload_world !! os_path_join "/app" "_uploaded_model.tmp" = Some 0%nat
  /\ files (snd (main pipeline readable readable "/app" reupload_world))
       !! os_path_join "/app" "_uploaded_model.tmp" = Some "second upload"
  /\ extended_by (predict_of 0) (events reupload_world)
       (events (snd (main pipeline readable readable "/app" reupload_world))).
Proof.
  split; [reflexivity|]. split; [reflexivity|].
  exact (main_upload_after_cached_model_is_not_loaded pipeline readable readable "/app"
           reupload_world "second upload" 0 eq_refl eq_refl).
Defined.

Lemma main_load_failure_is_not_caught_witness :
  ui_uploaded (ui idle_world) = None
  /\ files idle_world !! os_path_join "/app" "pipeline3_revised.pkl" = Some "model"
  /\ cache idle_world !! os_path_join "/app" "pipeline3_revised.pkl" = None
  /\ exists err,
       fst (main numeric_only unreadable unreadable "/app" idle_world) = Raise err
       /\ exn_class err = "RuntimeError".
Proof.
  split; [reflexivity|]. split; [reflexivity|]. split; [reflexivity|].
  destruct (main_load_failure_is_not_caught numeric_only unreadable unreadable "/app"
              idle_world "model" _ _ eq_refl eq_refl eq_refl eq_refl eq_refl)
    as (err & Hrun & Hclass & _).
  exists err. rewrite Hrun. auto.
Defined.

Lemma main_without_submission_predicts_nothing_witness :
  ui_clicked (ui idle_world) "Predict Yield" = false
  /\ extended_by is_load (events idle_world)
       (events (snd (main numeric_only readable readable "/app" idle_world))).
Proof.
  split; [reflexivity|].
  exact (proj1 (main_without_submission_predicts_nothing numeric_only readable readable
                  "/app" idle_world eq_refl)).
Defined.

Lemma main_caches_the_loaded_model_witness :
  ui_uploaded (ui idle_world) = None
  /\ files idle_world !! os_path_join "/app" "pipeline3_revised.pkl" = Some "model"
  /\ cache idle_world !! os_path_join "/app" "pipeline3_revised.pkl" = None
  /\ cache (snd (main numeric_only readable readable "/app" idle_world))
     = <[os_path_join "/app" "pipeline3_revised.pkl" := 0%nat]> (cache idle_world).
Proof.
  split; [reflexivity|]. split; [reflexivity|]. split; [reflexivity|].
  exact (main_caches_the_loaded_model numeric_only readable readable "/app"
           idle_world "model" tt eq_refl eq_refl eq_refl eq_refl).
Defined.
